(** * Blue/green deployment constructs: a shallow embedding

    The TypeScript sources are CDK constructs: each constructor reads its
    [props], creates child constructs under [this] and records a few public
    fields.  A constructor is embedded as a function from its props to the
    fields and children it builds; the property access [props.x!.y] on an
    optional prop raises a [TypeError] when [props.x] is undefined, which is
    the only way these constructors fail, so a constructor that makes such
    an access returns a [Result].

    Embedded:
    - [EcsBlueGreenDeploymentHooks] (lib/common, the aws-cdk-lib variant
      with three hooks, and the earlier @aws-cdk/core variant with two);
    - [EcsBlueGreenDeploymentGroup] (lib/ecs/deployment-group.ts);
    - [EcsBlueGreenPipeline] (lib/ecs), up to the pipeline's dependency;
    - the stack parameters of [BlueGreenPipelineStack] (bin).

    IAM policy statements and bucket policies only grant permissions; they
    are left out of the embedded constructors, as are the network load
    balancer, API gateway and outputs at the end of the pipeline
    constructor.

    The Python handlers under custom_resources and the deployment service
    are not part of these sources; the registrar, the listener rule
    controller and the cutover sequence are modelled from the design
    document, each definition saying so. *)

From stdpp Require Import gmap strings list fin_maps sets.
From Stdlib Require Import ZArith Lia Ascii.

Local Open Scope string_scope.
Local Open Scope Z_scope.

(** ** Runtime errors and the result monad *)

Inductive JsError : Type :=
| TypeError (what : string).

Inductive Result (A : Type) : Type :=
| Ok (a : A)
| Throw (e : JsError).

Arguments Ok {A} a.
Arguments Throw {A} e.

#[global] Instance Result_ret : MRet Result := fun A a => Ok a.
#[global] Instance Result_bind : MBind Result := fun A B f r =>
  match r with
  | Ok a => f a
  | Throw e => Throw e
  end.

#[global] Instance Result_fmap : FMap Result := fun A B f r =>
  match r with
  | Ok a => Ok (f a)
  | Throw e => Throw e
  end.

(** [x!.f]: the non-null assertion has no runtime effect, the property read
    that follows it throws on [undefined]. *)
Definition deref {A B : Type} (what : string) (x : option A) (f : A -> B)
  : Result B :=
  match x with
  | Some a => Ok (f a)
  | None => Throw (TypeError what)
  end.

Definition is_Ok {A : Type} (r : Result A) : bool :=
  match r with Ok _ => true | Throw _ => false end.

(** ** Collaborators from aws-cdk-lib (only the attributes the code reads) *)

Record ApplicationLoadBalancer : Type := {
  loadBalancerArn : string;
  loadBalancerDnsName : string
}.

Record ApplicationTargetGroup : Type := {
  targetGroupArn : string;
  targetGroupName : string
}.

Record ApplicationListener : Type := {
  listenerArn : string
}.

(** A construct is addressed by the ids on the way from the root. *)
Definition ConstructPath : Type := list string.

(** Path of the construct created as [new C(scope, id, ...)]. *)
Definition child (scope : ConstructPath) (id : string) : ConstructPath :=
  (scope ++ [id])%list.

Inductive Runtime : Type := PYTHON_3_8.

(** [Duration.seconds n] *)
Record Duration : Type := { seconds : Z }.

(** [lambda.Code.fromAsset(dir, {exclude})] *)
Record AssetCode : Type := {
  asset_dir : string;
  exclude : list string
}.

(** The props object given to [new lambda.Function(...)]. *)
Record FunctionProps : Type := {
  code : AssetCode;
  runtime : Runtime;
  handler : string;
  role : string;
  functionName : option string;
  description : string;
  environment : gmap string string;
  memorySize : Z;
  timeout : Duration
}.

(** [new lambda.Function(this, id, props)] *)
Record LambdaFunction : Type := {
  fn_id : string;
  fn_props : FunctionProps
}.

(** ** Lifecycle hook points of an ECS blue/green deployment *)

Inductive LifecycleHookName : Type :=
| BeforeInstall
| AfterAllowTestTraffic
| BeforeAllowTraffic
| AfterAllowTraffic.

#[global] Instance LifecycleHookName_eq_dec : EqDecision LifecycleHookName.
Proof. solve_decision. Defined.

(** The order in which the deployment lifecycle reaches the hook points. *)
Definition lifecycleOrder : list LifecycleHookName :=
  [BeforeInstall; AfterAllowTestTraffic; BeforeAllowTraffic; AfterAllowTraffic].

(** The hook points that have a handler of their own. *)
Definition explicitHooks : list LifecycleHookName :=
  [BeforeInstall; AfterAllowTestTraffic; BeforeAllowTraffic].

(** Naming scheme of the handlers: physical function name
    [blue-green-ecs-<hook point in kebab case>]. *)
Definition kebab (h : LifecycleHookName) : string :=
  match h with
  | BeforeInstall => "before-install"
  | AfterAllowTestTraffic => "after-allow-test-traffic"
  | BeforeAllowTraffic => "before-allow-traffic"
  | AfterAllowTraffic => "after-allow-traffic"
  end.

Definition handlerFunctionName (h : LifecycleHookName) : string :=
  "blue-green-ecs-" +:+ kebab h.

(** Python module of a handler: [<hook point in snake case>.handler]. *)
Definition snake (h : LifecycleHookName) : string :=
  match h with
  | BeforeInstall => "before_install"
  | AfterAllowTestTraffic => "after_allow_test_traffic"
  | BeforeAllowTraffic => "before_allow_traffic"
  | AfterAllowTraffic => "after_allow_traffic"
  end.

Definition handlerEntryPoint (h : LifecycleHookName) : string :=
  snake h +:+ ".handler".

(** Reading of a comma separated value list such as ['88888,99999']. *)
Fixpoint splitComma (acc : string) (s : string) : list string :=
  match s with
  | EmptyString => [acc]
  | String c rest =>
      if Ascii.eqb c ","%char then acc :: splitComma "" rest
      else splitComma (acc +:+ String c EmptyString) rest
  end.

Definition headerValues (s : string) : list string := splitComma "" s.

(** ** lib/common/hooks: EcsBlueGreenDeploymentHooks *)

Module Hooks.

Record EcsBlueGreenDeploymentHookProps : Type := {
  targetGroupX : option ApplicationTargetGroup;
  targetGroupY : option ApplicationTargetGroup;
  alb : option ApplicationLoadBalancer;
  prodListener : option ApplicationListener
}.

Record DeploymentHook : Type := { name : string }.

(** The fields of the class and the lambda functions created under it. *)
Record EcsBlueGreenDeploymentHooks : Type := {
  deploymentHooks : list DeploymentHook;
  httpHeaderName : string;
  httpHeaderValueList : string;
  functions : list LambdaFunction
}.

Definition hookAsset (file : string) : AssetCode :=
  {| asset_dir := "custom_resources"; exclude := ["**"; "!" +:+ file] |}.

(** [fn.functionName] of a function created with an explicit physical
    name resolves to that name. *)
Definition functionNameOf (f : LambdaFunction) : string :=
  default "" (functionName (fn_props f)).

(** [array.push(x)] *)
Definition push {A : Type} (l : list A) (x : A) : list A := (l ++ [x])%list.

Definition EcsBlueGreenDeploymentHooks_new
    (props : EcsBlueGreenDeploymentHookProps)
  : Result EcsBlueGreenDeploymentHooks :=
  (* field initialisers *)
  let deploymentHooks0 : list DeploymentHook := [] in
  let this_httpHeaderName := "counter_no" in
  let this_httpHeaderValueList := "88888,99999" in
  (* IAM role for hook lambda functions *)
  let customLambdaServiceRole := "codeDeployHookCustomLambda" in
  (* BeforeInstall hook *)
  bi_alb ← deref "props.alb" (alb props) loadBalancerArn;
  bi_listener ← deref "props.prodListener" (prodListener props) listenerArn;
  let BeforeInstallLambda :=
    {| fn_id := "BeforeInstallLambda";
       fn_props :=
         {| code := hookAsset "before_install.py";
            runtime := PYTHON_3_8;
            handler := "before_install.handler";
            role := customLambdaServiceRole;
            functionName := Some "blue-green-ecs-before-install";
            description := "Deployment lifecycle hook to clean up listener rules before install replacement taskset";
            environment :=
              <["ALB_PROD_LISTENER" := bi_listener]>
                (<["APP_ALB" := bi_alb]> ∅);
            memorySize := 128;
            timeout := {| seconds := 60 |} |} |} in
  (* AfterAllowTestTraffic hook *)
  tt_alb ← deref "props.alb" (alb props) loadBalancerArn;
  tt_x ← deref "props.targetGroupX" (targetGroupX props) targetGroupArn;
  tt_y ← deref "props.targetGroupY" (targetGroupY props) targetGroupArn;
  tt_listener ← deref "props.prodListener" (prodListener props) listenerArn;
  let afterAllowTestTrafficLambda :=
    {| fn_id := "afterAllowTestTrafficLambda";
       fn_props :=
         {| code := hookAsset "after_allow_test_traffic.py";
            runtime := PYTHON_3_8;
            handler := "after_allow_test_traffic.handler";
            role := customLambdaServiceRole;
            functionName := Some "blue-green-ecs-after-allow-test-traffic";
            description := "Deployment lifecycle hook for testing";
            environment :=
              <["HTTP_HEADER_VALUE_LIST" := this_httpHeaderValueList]>
                (<["HTTP_HEADER_NAME" := this_httpHeaderName]>
                  (<["ALB_PROD_LISTENER" := tt_listener]>
                    (<["ALB_TG_Y" := tt_y]>
                      (<["ALB_TG_X" := tt_x]>
                        (<["APP_ALB" := tt_alb]> ∅)))));
            memorySize := 128;
            timeout := {| seconds := 60 |} |} |} in
  (* BeforeAllowTraffic hook *)
  bt_alb ← deref "props.alb" (alb props) loadBalancerArn;
  bt_listener ← deref "props.prodListener" (prodListener props) listenerArn;
  let beforeAllowTrafficLambda :=
    {| fn_id := "beforeAllowTrafficLambda";
       fn_props :=
         {| code := hookAsset "before_allow_traffic.py";
            runtime := PYTHON_3_8;
            handler := "before_allow_traffic.handler";
            role := customLambdaServiceRole;
            functionName := Some "blue-green-ecs-before-allow-traffic";
            description := "Deployment lifecycle hook to clean up tests";
            environment :=
              <["ALB_PROD_LISTENER" := bt_listener]>
                (<["APP_ALB" := bt_alb]> ∅);
            memorySize := 128;
            timeout := {| seconds := 60 |} |} |} in
  let deploymentHooks1 :=
    push deploymentHooks0 {| name := functionNameOf BeforeInstallLambda |} in
  let deploymentHooks2 :=
    push deploymentHooks1 {| name := functionNameOf afterAllowTestTrafficLambda |} in
  let deploymentHooks3 :=
    push deploymentHooks2 {| name := functionNameOf beforeAllowTrafficLambda |} in
  Ok {| deploymentHooks := deploymentHooks3;
        httpHeaderName := this_httpHeaderName;
        httpHeaderValueList := this_httpHeaderValueList;
        functions := [BeforeInstallLambda;
                      afterAllowTestTrafficLambda;
                      beforeAllowTrafficLambda] |}.

(** The handler created for a hook point, found by its physical name. *)
Definition handlerFor (h : EcsBlueGreenDeploymentHooks) (p : LifecycleHookName)
  : option LambdaFunction :=
  List.find (fun f => String.eqb (functionNameOf f) (handlerFunctionName p))
            (functions h).

(** An input reaches a handler when some environment variable holds it. *)
Definition receives (f : LambdaFunction) (v : string) : Prop :=
  ∃ k, environment (fn_props f) !! k = Some v.

End Hooks.

(** ** The earlier variant of the hooks construct (@aws-cdk/core)

    It has two handlers, takes the target groups as blue and green, and
    sets no header configuration. *)

Module HooksV1.

Record EcsBlueGreenDeploymentHookProps : Type := {
  blueTargetGroup : option ApplicationTargetGroup;
  greenTargetGroup : option ApplicationTargetGroup;
  alb : option ApplicationLoadBalancer;
  prodListener : option ApplicationListener
}.

Record EcsBlueGreenDeploymentHooks : Type := {
  deploymentHooks : list Hooks.DeploymentHook;
  functions : list LambdaFunction
}.

Definition hookFunction (id file entry fname descr : string)
    (env : gmap string string) : LambdaFunction :=
  {| fn_id := id;
     fn_props :=
       {| code := Hooks.hookAsset file;
          runtime := PYTHON_3_8;
          handler := entry;
          role := "codeDeployHookCustomLambda";
          functionName := Some fname;
          description := descr;
          environment := env;
          memorySize := 128;
          timeout := {| seconds := 60 |} |} |}.

Definition hookEnvironment (props : EcsBlueGreenDeploymentHookProps)
  : Result (gmap string string) :=
  e_alb ← deref "props.alb" (alb props) loadBalancerArn;
  e_blue ← deref "props.blueTargetGroup" (blueTargetGroup props) targetGroupArn;
  e_green ← deref "props.greenTargetGroup" (greenTargetGroup props) targetGroupArn;
  e_listener ← deref "props.prodListener" (prodListener props) listenerArn;
  Ok (<["ALB_PROD_LISTENER" := e_listener]>
        (<["ALB_GREEN_TG" := e_green]>
          (<["ALB_BLUE_TG" := e_blue]>
            (<["APP_ALB" := e_alb]> ∅)))).

Definition EcsBlueGreenDeploymentHooks_new
    (props : EcsBlueGreenDeploymentHookProps)
  : Result EcsBlueGreenDeploymentHooks :=
  let deploymentHooks0 : list Hooks.DeploymentHook := [] in
  (* AfterAllowTestTraffic hook *)
  tt_env ← hookEnvironment props;
  let afterAllowTestTrafficLambda :=
    hookFunction "afterAllowTestTrafficLambda" "after_allow_test_traffic.py"
      "after_allow_test_traffic.handler"
      "blue-green-ecs-after-allow-test-traffic"
      "Deployment lifecycle hook for testing" tt_env in
  (* BeforeAllowTraffic hook *)
  bt_env ← hookEnvironment props;
  let beforeAllowTrafficLambda :=
    hookFunction "beforeAllowTrafficLambda" "before_allow_traffic.py"
      "before_allow_traffic.handler"
      "blue-green-ecs-before-allow-traffic"
      "Deployment lifecycle hook to clean up tests" bt_env in
  let deploymentHooks1 :=
    Hooks.push deploymentHooks0
      {| Hooks.name := Hooks.functionNameOf afterAllowTestTrafficLambda |} in
  let deploymentHooks2 :=
    Hooks.push deploymentHooks1
      {| Hooks.name := Hooks.functionNameOf beforeAllowTrafficLambda |} in
  Ok {| deploymentHooks := deploymentHooks2;
        functions := [afterAllowTestTrafficLambda; beforeAllowTrafficLambda] |}.

End HooksV1.


(** ** Values of a JavaScript object literal *)

Inductive JsValue : Type :=
| JsUndefined
| JsString (s : string)
| JsNumber (n : Z).

#[global] Instance JsValue_eq_dec : EqDecision JsValue.
Proof. solve_decision. Defined.

Definition jsString (o : option string) : JsValue :=
  match o with Some s => JsString s | None => JsUndefined end.

Definition jsNumber (o : option Z) : JsValue :=
  match o with Some n => JsNumber n | None => JsUndefined end.

(** An attribute of a resource created by the construct itself (a role ARN,
    a function ARN, a generated name) is only known at deployment; it is
    carried as a token naming the resource and the attribute. *)
Definition tokenOf (p : ConstructPath) (attr : string) : string :=
  "${Token[" +:+ String.concat "/" p +:+ "." +:+ attr +:+ "]}".

(** ** lib/ecs/deployment-group.ts: EcsBlueGreenDeploymentGroup *)

Module DeploymentGroup.

(** [new codeDeploy.EcsApplication(this, id)] *)
Record EcsApplication : Type := { app_path : ConstructPath }.

Definition applicationName (a : EcsApplication) : string :=
  tokenOf (app_path a) "Ref".

(** [EcsDeploymentConfig.fromEcsDeploymentConfigName(this, id, name)] *)
Record IEcsDeploymentConfig : Type := {
  config_id : string;
  config_name : option string
}.

(** [EcsDeploymentGroup.fromEcsDeploymentGroupAttributes(this, id, attrs)] *)
Record IEcsDeploymentGroup : Type := {
  group_id : string;
  application : EcsApplication;
  group_name : option string;
  deploymentConfig : IEcsDeploymentConfig
}.

(** [new CustomResource(this, id, {serviceToken, properties})] *)
Record CustomResource : Type := {
  resource_id : string;
  serviceToken : string;
  properties : gmap string JsValue
}.

Section WithAlarms.

(** [TargetGroupAlarm] is declared in lib/ecs/alarms, and [JSON.stringify]
    of a list of them is a string. *)
Variable TargetGroupAlarm : Type.
Variable JSON_stringify : list TargetGroupAlarm -> string.

(** [JSON.stringify(undefined)] is [undefined]. *)
Definition stringifyAlarms (o : option (list TargetGroupAlarm)) : JsValue :=
  match o with
  | Some alarms => JsString (JSON_stringify alarms)
  | None => JsUndefined
  end.

Record EcsBlueGreenDeploymentGroupProps : Type := {
  deploymentGroupName : option string;
  deploymentConfigName : option string;
  terminationWaitTime : option Z;
  deploymentReadyWaitTime : option Z;
  blueTargetGroupName : option string;
  greenTargetGroupName : option string;
  targetGroupAlarms : option (list TargetGroupAlarm);
  prodListenerArn : option string;
  testListenerArn : option string;
  ecsClusterName : option string;
  ecsServiceName : option string
}.

Record EcsBlueGreenDeploymentGroup : Type := {
  node_path : ConstructPath;
  ecsDeploymentGroup : IEcsDeploymentGroup;
  ecsApplication : EcsApplication;
  codeDeployServiceRole : ConstructPath;
  createDeploymentGroupLambda : LambdaFunction;
  customEcsDeploymentGroup : CustomResource
}.

Definition EcsBlueGreenDeploymentGroup_new
    (scope : ConstructPath) (id : string)
    (props : EcsBlueGreenDeploymentGroupProps)
  : EcsBlueGreenDeploymentGroup :=
  let this := child scope id in
  (* Creating the ecs application *)
  let ecsApplication := {| app_path := child this "ecsApplication" |} in
  (* Creating the code deploy service role *)
  let codeDeployServiceRole := child this "ecsCodeDeployServiceRole" in
  (* IAM role for custom lambda function *)
  let customLambdaServiceRole := "codeDeployCustomLambda" in
  (* Custom resource to create the deployment group *)
  let createDeploymentGroupLambda :=
    {| fn_id := "createDeploymentGroupLambda";
       fn_props :=
         {| code := {| asset_dir := "custom_resources";
                       exclude := ["**"; "!create_deployment_group.py"] |};
            runtime := PYTHON_3_8;
            handler := "create_deployment_group.handler";
            role := customLambdaServiceRole;
            functionName := None;
            description := "Custom resource to create ECS deployment group";
            environment := ∅;
            memorySize := 128;
            timeout := {| seconds := 60 |} |} |} in
  let customEcsDeploymentGroup :=
    {| resource_id := "customEcsDeploymentGroup";
       serviceToken := tokenOf (child this (fn_id createDeploymentGroupLambda)) "Arn";
       properties :=
         <["DeploymentReadyWaitTime" := jsNumber (deploymentReadyWaitTime props)]>
         (<["TerminationWaitTime" := jsNumber (terminationWaitTime props)]>
         (<["EcsServiceName" := jsString (ecsServiceName props)]>
         (<["EcsClusterName" := jsString (ecsClusterName props)]>
         (<["TargetGroupAlarms" := stringifyAlarms (targetGroupAlarms props)]>
         (<["TestListenerArn" := jsString (testListenerArn props)]>
         (<["ProdListenerArn" := jsString (prodListenerArn props)]>
         (<["GreenTargetGroup" := jsString (greenTargetGroupName props)]>
         (<["BlueTargetGroup" := jsString (blueTargetGroupName props)]>
         (<["ServiceRoleArn" := JsString (tokenOf codeDeployServiceRole "Arn")]>
         (<["DeploymentConfigName" := jsString (deploymentConfigName props)]>
         (<["DeploymentGroupName" := jsString (deploymentGroupName props)]>
         (<["ApplicationName" := JsString (applicationName ecsApplication)]>
           ∅)))))))))))) |} in
  {| node_path := this;
     ecsDeploymentGroup :=
       {| group_id := "ecsDeploymentGroup";
          application := ecsApplication;
          group_name := deploymentGroupName props;
          deploymentConfig :=
            {| config_id := "ecsDeploymentConfig";
               config_name := deploymentConfigName props |} |};
     ecsApplication := ecsApplication;
     codeDeployServiceRole := codeDeployServiceRole;
     createDeploymentGroupLambda := createDeploymentGroupLambda;
     customEcsDeploymentGroup := customEcsDeploymentGroup |}.

(** Path of the custom resource that registers the deployment group. *)
Definition registrarPath (g : EcsBlueGreenDeploymentGroup) : ConstructPath :=
  child (node_path g) (resource_id (customEcsDeploymentGroup g)).

End WithAlarms.

Arguments deploymentGroupName {TargetGroupAlarm} _.
Arguments deploymentConfigName {TargetGroupAlarm} _.
Arguments terminationWaitTime {TargetGroupAlarm} _.
Arguments deploymentReadyWaitTime {TargetGroupAlarm} _.
Arguments blueTargetGroupName {TargetGroupAlarm} _.
Arguments greenTargetGroupName {TargetGroupAlarm} _.
Arguments targetGroupAlarms {TargetGroupAlarm} _.
Arguments prodListenerArn {TargetGroupAlarm} _.
Arguments testListenerArn {TargetGroupAlarm} _.
Arguments ecsClusterName {TargetGroupAlarm} _.
Arguments ecsServiceName {TargetGroupAlarm} _.
Arguments EcsBlueGreenDeploymentGroup_new {TargetGroupAlarm} _ _ _ _.
Arguments stringifyAlarms {TargetGroupAlarm} _ _.

(** The fields of the registrar invocation, in the order the custom
    resource lists them. *)
Definition registrarFields : list string :=
  ["ApplicationName"; "DeploymentGroupName"; "DeploymentConfigName";
   "ServiceRoleArn"; "BlueTargetGroup"; "GreenTargetGroup";
   "ProdListenerArn"; "TestListenerArn"; "TargetGroupAlarms";
   "EcsClusterName"; "EcsServiceName"; "TerminationWaitTime";
   "DeploymentReadyWaitTime"].

End DeploymentGroup.

(** ** lib/ecs/pipeline: EcsBlueGreenPipeline *)

Module Pipeline.

Record ICluster : Type := { clusterName : string }.
Record IVpc : Type := { vpcId : string }.
Record EcsService : Type := { serviceName : string }.

(** What the pipeline reads from [EcsBlueGreenService] (lib/ecs/service). *)
Record EcsBlueGreenService : Type := {
  ecsService : EcsService;
  alb : ApplicationLoadBalancer;
  albProdListener : ApplicationListener;
  albTestListener : ApplicationListener;
  blueTargetGroup : ApplicationTargetGroup;
  greenTargetGroup : ApplicationTargetGroup
}.

Record EcsBlueGreenServiceProps : Type := {
  svc_containerPort : option Z;
  svc_apiName : option string;
  svc_ecrRepository : option string;
  svc_ecsTaskRole : option string;
  svc_vpc : option IVpc;
  svc_cluster : option ICluster
}.

Record EcsServiceAlarmsProps : Type := {
  alarms_alb : ApplicationLoadBalancer;
  alarms_blueTargetGroup : ApplicationTargetGroup;
  alarms_greenTargetGroup : ApplicationTargetGroup;
  alarms_apiName : option string
}.

Inductive Action : Type :=
| CodeCommitSourceAction
    (actionName : string) (repository : option string)
    (output : string) (branch : string)
| CodeBuildAction
    (actionName : string) (project : option string)
    (input : string) (outputs : list string)
| CodeDeployEcsDeployAction
    (actionName : string) (deploymentGroup : DeploymentGroup.IEcsDeploymentGroup)
    (appSpecTemplateInput : string) (taskDefinitionTemplateInput : string).

Record StageProps : Type := {
  stageName : string;
  actions : list Action
}.

(** [new codePipeline.Pipeline(this, id, props)] with the dependencies
    added to its node. *)
Record CodePipeline : Type := {
  pipeline_path : ConstructPath;
  pipeline_role : string;
  artifactBucket : string;
  stages : list StageProps;
  dependencies : list ConstructPath
}.

(** [construct.node.addDependency(dep)] *)
Definition addDependency (p : CodePipeline) (dep : ConstructPath) : CodePipeline :=
  {| pipeline_path := pipeline_path p;
     pipeline_role := pipeline_role p;
     artifactBucket := artifactBucket p;
     stages := stages p;
     dependencies := (dependencies p ++ [dep])%list |}.

Record EcsBlueGreenPipelineProps : Type := {
  codeRepoName : option string;
  ecrRepoName : option string;
  codeBuildProjectName : option string;
  ecsTaskRoleArn : option string;
  containerPort : option Z;
  apiName : option string;
  vpc : option IVpc;
  cluster : option ICluster;
  taskSetTerminationTimeInMinutes : option Z;
  deploymentReadyWaitTimeinMinutes : option Z;
  deploymentConfigName : option string
}.

Section WithCollaborators.

Variable TargetGroupAlarm : Type.
Variable JSON_stringify : list TargetGroupAlarm -> string.

(** The constructors of lib/ecs/service and lib/ecs/alarms; of the second
    only the [targetGroupAlarms] field is read. *)
Variable EcsBlueGreenService_new :
  ConstructPath -> string -> EcsBlueGreenServiceProps -> Result EcsBlueGreenService.
Variable EcsServiceAlarms_new :
  ConstructPath -> string -> EcsServiceAlarmsProps -> Result (list TargetGroupAlarm).

Record EcsBlueGreenPipeline : Type := {
  node_path : ConstructPath;
  service : EcsBlueGreenService;
  serviceAlarms : list TargetGroupAlarm;
  deploymentGroup : DeploymentGroup.EcsBlueGreenDeploymentGroup;
  deploymentHooks : Hooks.EcsBlueGreenDeploymentHooks;
  codePipeline : CodePipeline
}.

(** The constructor up to [pipeline.node.addDependency]; the statements
    after it (network load balancer, API gateway, stack outputs) add
    further children and read none of the values built here but
    [ecsBlueGreenService.alb].  The four lookups at the start
    ([fromRepositoryName], [fromProjectName], [fromRoleArn]) are carried as
    the names they are given: the library's own checks are not embedded,
    so the real constructor can throw where this one returns
    ([fromRoleArn] on a missing or malformed ARN, the network load
    balancer on a missing [vpc]).  What is proved of a pipeline that was
    built therefore covers every pipeline the real constructor builds. *)
Definition EcsBlueGreenPipeline_new
    (scope : ConstructPath) (id : string) (props : EcsBlueGreenPipelineProps)
  : Result EcsBlueGreenPipeline :=
  let this := child scope id in
  let codeRepo := codeRepoName props in
  let ecrRepo := ecrRepoName props in
  let codeBuildProject := codeBuildProjectName props in
  let ecsTaskRole := ecsTaskRoleArn props in
  let codePipelineRole := "codePipelineRole" in
  let sourceArtifact := "sourceArtifact" in
  let buildArtifact := "buildArtifact" in
  (* S3 bucket for storing the code pipeline artifacts *)
  let artifactsBucket := "artifactsBucket" in
  ecsBlueGreenService ←
    EcsBlueGreenService_new this "service"
      {| svc_containerPort := containerPort props;
         svc_apiName := apiName props;
         svc_ecrRepository := ecrRepo;
         svc_ecsTaskRole := ecsTaskRole;
         svc_vpc := vpc props;
         svc_cluster := cluster props |};
  ecsServiceAlarms ←
    EcsServiceAlarms_new this "alarms"
      {| alarms_alb := alb ecsBlueGreenService;
         alarms_blueTargetGroup := blueTargetGroup ecsBlueGreenService;
         alarms_greenTargetGroup := greenTargetGroup ecsBlueGreenService;
         alarms_apiName := apiName props |};
  let ecsBlueGreenDeploymentGroup :=
    DeploymentGroup.EcsBlueGreenDeploymentGroup_new JSON_stringify this "ecsApplication"
      {| DeploymentGroup.ecsClusterName := clusterName <$> cluster props;
         DeploymentGroup.ecsServiceName :=
           Some (serviceName (ecsService ecsBlueGreenService));
         DeploymentGroup.prodListenerArn :=
           Some (listenerArn (albProdListener ecsBlueGreenService));
         DeploymentGroup.testListenerArn :=
           Some (listenerArn (albTestListener ecsBlueGreenService));
         DeploymentGroup.blueTargetGroupName :=
           Some (targetGroupName (blueTargetGroup ecsBlueGreenService));
         DeploymentGroup.greenTargetGroupName :=
           Some (targetGroupName (greenTargetGroup ecsBlueGreenService));
         DeploymentGroup.terminationWaitTime := taskSetTerminationTimeInMinutes props;
         DeploymentGroup.deploymentReadyWaitTime := deploymentReadyWaitTimeinMinutes props;
         DeploymentGroup.deploymentConfigName := deploymentConfigName props;
         DeploymentGroup.deploymentGroupName := apiName props;
         DeploymentGroup.targetGroupAlarms := Some ecsServiceAlarms |} in
  (* Blue/Green deployment lifecycle hooks *)
  ecsBlueGreenDeploymentHooks ←
    Hooks.EcsBlueGreenDeploymentHooks_new
      {| Hooks.alb := Some (alb ecsBlueGreenService);
         Hooks.targetGroupX := Some (blueTargetGroup ecsBlueGreenService);
         Hooks.targetGroupY := Some (greenTargetGroup ecsBlueGreenService);
         Hooks.prodListener := Some (albProdListener ecsBlueGreenService) |};
  (* Code Pipeline *)
  let pipeline :=
    {| pipeline_path := child this "ecsBlueGreen";
       pipeline_role := codePipelineRole;
       artifactBucket := artifactsBucket;
       stages :=
         [ {| stageName := "Source";
              actions := [CodeCommitSourceAction "Source" codeRepo sourceArtifact "main"] |};
           {| stageName := "Build";
              actions := [CodeBuildAction "Build" codeBuildProject sourceArtifact
                                          [buildArtifact]] |};
           {| stageName := "Deploy";
              actions :=
                [CodeDeployEcsDeployAction "Deploy"
                   (DeploymentGroup.ecsDeploymentGroup ecsBlueGreenDeploymentGroup)
                   buildArtifact buildArtifact] |} ];
       dependencies := [] |} in
  let pipeline :=
    addDependency pipeline (DeploymentGroup.node_path ecsBlueGreenDeploymentGroup) in
  Ok {| node_path := this;
        service := ecsBlueGreenService;
        serviceAlarms := ecsServiceAlarms;
        deploymentGroup := ecsBlueGreenDeploymentGroup;
        deploymentHooks := ecsBlueGreenDeploymentHooks;
        codePipeline := pipeline |}.

End WithCollaborators.

Arguments node_path {TargetGroupAlarm} _.
Arguments service {TargetGroupAlarm} _.
Arguments serviceAlarms {TargetGroupAlarm} _.
Arguments deploymentGroup {TargetGroupAlarm} _.
Arguments deploymentHooks {TargetGroupAlarm} _.
Arguments codePipeline {TargetGroupAlarm} _.
Arguments EcsBlueGreenPipeline_new {TargetGroupAlarm} _ _ _ _ _ _.

(** The deployment groups targeted by the actions of a stage. *)
Definition deployTargets (s : StageProps) : list DeploymentGroup.IEcsDeploymentGroup :=
  omap (fun a => match a with
                 | CodeDeployEcsDeployAction _ g _ _ => Some g
                 | _ => None
                 end) (actions s).

Definition stageNamed (p : CodePipeline) (n : string) : option StageProps :=
  List.find (fun s => String.eqb (stageName s) n) (stages p).

(** *** Deployment order

    A dependency of construct [a] on construct [b] makes every resource
    under [a] wait for every resource under [b]. *)
Definition waitsFor (deps : list (ConstructPath * ConstructPath))
    (later earlier : ConstructPath) : Prop :=
  ∃ a b, (a, b) ∈ deps ∧ a `prefix_of` later ∧ b `prefix_of` earlier.

(** A creation order (resources by position) that honours the dependencies. *)
Definition honours (order : list ConstructPath)
    (deps : list (ConstructPath * ConstructPath)) : Prop :=
  ∀ later earlier i j,
    waitsFor deps later earlier ->
    order !! i = Some later -> order !! j = Some earlier -> (j < i)%nat.

(** The dependencies recorded on the pipeline node. *)
Definition pipelineDependencies (p : CodePipeline)
  : list (ConstructPath * ConstructPath) :=
  (fun d => (pipeline_path p, d)) <$> dependencies p.

(** The hook invocation contract of the design: the load balancer, the
    production listener, the test listener and both target groups. *)
Definition fullInputSet (s : EcsBlueGreenService) (f : LambdaFunction) : Prop :=
  Hooks.receives f (loadBalancerArn (alb s))
  ∧ Hooks.receives f (listenerArn (albProdListener s))
  ∧ Hooks.receives f (listenerArn (albTestListener s))
  ∧ Hooks.receives f (targetGroupArn (blueTargetGroup s))
  ∧ Hooks.receives f (targetGroupArn (greenTargetGroup s)).

(** The AfterAllowTestTraffic handler is given the test listener. *)
Definition givenTestListener (s : EcsBlueGreenService)
    (h : Hooks.EcsBlueGreenDeploymentHooks) : Prop :=
  ∃ f, Hooks.handlerFor h AfterAllowTestTraffic = Some f
       ∧ Hooks.receives f (listenerArn (albTestListener s)).

End Pipeline.

(** ** bin/pipeline-stack: the stack parameters *)

Module PipelineStack.

(** The props of [new CfnParameter(this, id, props)]. *)
Record CfnParameterProps : Type := {
  type : string;
  default : option string;
  allowedValues : option (list string);
  description : string
}.

Definition deploymentConfigName : CfnParameterProps :=
  {| type := "String";
     default := Some "CodeDeployDefault.ECSLinear10PercentEvery1Minutes";
     allowedValues :=
       Some ["CodeDeployDefault.ECSLinear10PercentEvery1Minutes";
             "CodeDeployDefault.ECSLinear10PercentEvery3Minutes";
             "CodeDeployDefault.ECSCanary10Percent5Minutes";
             "CodeDeployDefault.ECSCanary10Percent15Minutes";
             "CodeDeployDefault.ECSAllAtOnce"];
     description := "Shifts x percentage of traffic every x minutes until all traffic is shifted" |}.

Definition taskSetTerminationTimeInMinutes : CfnParameterProps :=
  {| type := "Number";
     default := Some "10";
     allowedValues := None;
     description := "TaskSet termination time in minutes" |}.

Definition deploymentReadyWaitTimeinMinutes : CfnParameterProps :=
  {| type := "Number";
     default := Some "0";
     allowedValues := None;
     description := "Minutes to wait before deployment status changed to Stopped if rerouting is not started manually" |}.

(** A value is accepted for a parameter when the parameter lists no
    allowed values or lists this one. *)
Definition admissible (p : CfnParameterProps) (v : string) : bool :=
  match allowedValues p with
  | None => true
  | Some l => bool_decide (v ∈ l)
  end.

(** The value the parameter takes: the one supplied, else the default. *)
Definition valueAsString (p : CfnParameterProps) (supplied : option string)
  : option string :=
  match supplied with
  | Some v => if admissible p v then Some v else None
  | None => default p
  end.

(** The ECS traffic-shift policies predefined by CodeDeploy, and the name
    under which CodeDeploy knows each. *)
Inductive EcsTrafficShiftPolicy : Type :=
| ECSLinear10PercentEvery1Minutes
| ECSLinear10PercentEvery3Minutes
| ECSCanary10Percent5Minutes
| ECSCanary10Percent15Minutes
| ECSAllAtOnce.

Definition policies : list EcsTrafficShiftPolicy :=
  [ECSLinear10PercentEvery1Minutes; ECSLinear10PercentEvery3Minutes;
   ECSCanary10Percent5Minutes; ECSCanary10Percent15Minutes; ECSAllAtOnce].

Definition policyName (p : EcsTrafficShiftPolicy) : string :=
  match p with
  | ECSLinear10PercentEvery1Minutes => "ECSLinear10PercentEvery1Minutes"
  | ECSLinear10PercentEvery3Minutes => "ECSLinear10PercentEvery3Minutes"
  | ECSCanary10Percent5Minutes => "ECSCanary10Percent5Minutes"
  | ECSCanary10Percent15Minutes => "ECSCanary10Percent15Minutes"
  | ECSAllAtOnce => "ECSAllAtOnce"
  end.

Definition configName (p : EcsTrafficShiftPolicy) : string :=
  "CodeDeployDefault." +:+ policyName p.

End PipelineStack.

(** ** The deployment-group registrar

    The custom resource hands its properties to
    [create_deployment_group.handler] (lib/ecs/custom_resources), which is
    not among the sources; the registrar is described by section 4.1 of the
    design. *)

Module Registrar.

(** The registrar invocation contract. *)
Record DeploymentGroupSpec : Type := {
  applicationName : string;
  deploymentGroupName : string;
  deploymentConfigName : string;
  serviceRoleArn : string;
  blueTargetGroup : string;
  greenTargetGroup : string;
  prodListenerArn : string;
  testListenerArn : string;
  alarms : list string;
  ecsClusterName : string;
  ecsServiceName : string;
  terminationWaitTimeMinutes : Z;
  deploymentReadyWaitTimeMinutes : Z
}.

#[global] Instance DeploymentGroupSpec_eq_dec : EqDecision DeploymentGroupSpec.
Proof. solve_decision. Defined.

Inductive RegistrarError : Type :=
| RegistrationConflict
| InvalidConfig.

Record DeploymentGroupHandle : Type := {
  handle_application : string;
  handle_group : string
}.

Inductive Outcome : Type :=
| Registered (h : DeploymentGroupHandle)
| Rejected (e : RegistrarError).

(** The closed set of traffic-shift policies. *)
Definition knownConfigs : list string :=
  PipelineStack.configName <$> PipelineStack.policies.

(** The mutable fields of a group (alarms, wait times, config name) taken
    from [g], the others kept from [old]. *)
Definition updateMutable (old g : DeploymentGroupSpec) : DeploymentGroupSpec :=
  {| applicationName := applicationName old;
     deploymentGroupName := deploymentGroupName old;
     deploymentConfigName := deploymentConfigName g;
     serviceRoleArn := serviceRoleArn old;
     blueTargetGroup := blueTargetGroup old;
     greenTargetGroup := greenTargetGroup old;
     prodListenerArn := prodListenerArn old;
     testListenerArn := testListenerArn old;
     alarms := alarms g;
     ecsClusterName := ecsClusterName old;
     ecsServiceName := ecsServiceName old;
     terminationWaitTimeMinutes := terminationWaitTimeMinutes g;
     deploymentReadyWaitTimeMinutes := deploymentReadyWaitTimeMinutes g |}.

Definition handleOf (g : DeploymentGroupSpec) : DeploymentGroupHandle :=
  {| handle_application := applicationName g;
     handle_group := deploymentGroupName g |}.

Definition samePair (old g : DeploymentGroupSpec) : bool :=
  bool_decide (blueTargetGroup old = blueTargetGroup g
               ∧ greenTargetGroup old = greenTargetGroup g).

(** Modelled from the spec: [upsert] of section 4.1, whose handler
    (custom_resources/create_deployment_group.py) is missing.  The registry
    is keyed by deployment-group name.  An unknown config name is
    [InvalidConfig]; a group of the same name with another target-group
    pair is [RegistrationConflict]; an absent group is created; a present
    one has its mutable fields updated in place. *)
Definition upsert (g : DeploymentGroupSpec) (reg : gmap string DeploymentGroupSpec)
  : gmap string DeploymentGroupSpec * Outcome :=
  if bool_decide (deploymentConfigName g ∈ knownConfigs) then
    match reg !! deploymentGroupName g with
    | None => (<[deploymentGroupName g := g]> reg, Registered (handleOf g))
    | Some old =>
        if samePair old g then
          (<[deploymentGroupName g := updateMutable old g]> reg,
           Registered (handleOf old))
        else (reg, Rejected RegistrationConflict)
    end
  else (reg, Rejected InvalidConfig).

(** Modelled from the spec: [delete(name)] of section 4.1. *)
Definition delete_group (name : string) (reg : gmap string DeploymentGroupSpec)
  : gmap string DeploymentGroupSpec :=
  delete name reg.

(** The registry is well keyed when every group sits under its own name. *)
Definition wellKeyed (reg : gmap string DeploymentGroupSpec) : Prop :=
  ∀ n g, reg !! n = Some g -> deploymentGroupName g = n.

End Registrar.

(** ** The listener rule controller

    The rule mutations are made by the hook handlers
    ([before_install.py], [after_allow_test_traffic.py],
    [before_allow_traffic.py] in lib/common/custom_resources), which are not
    among the sources; the controller is described by section 4.2 of the
    design. *)

Module ListenerRules.

Record HeaderMatch : Type := {
  headerName : string;
  acceptedValues : list string
}.

#[global] Instance HeaderMatch_eq_dec : EqDecision HeaderMatch.
Proof. solve_decision. Defined.

Inductive RuleOrigin : Type :=
| TestIsolation
| Provisioned.

#[global] Instance RuleOrigin_eq_dec : EqDecision RuleOrigin.
Proof. solve_decision. Defined.

Record ListenerRule : Type := {
  priority : nat;
  condition : HeaderMatch;
  target : string;
  origin : RuleOrigin
}.

#[global] Instance ListenerRule_eq_dec : EqDecision ListenerRule.
Proof. solve_decision. Defined.

(** A forward action: target groups with their share of the traffic in
    percent. *)
Definition Forward : Type := list (string * nat).

Record Listener : Type := {
  defaultAction : Forward;
  rules : list ListenerRule
}.

Record LoadBalancer : Type := {
  albArn : string;
  listeners : gmap string Listener;
  targetGroups : gset string
}.

Inductive ControllerError : Type :=
| ResourceNotFound.

Record RuleHandle : Type := {
  handle_listener : string;
  handle_priority : nat
}.

Definition isIsolation (r : ListenerRule) : bool :=
  bool_decide (origin r = TestIsolation).

Definition isolationRules (l : Listener) : list ListenerRule :=
  List.filter isIsolation (rules l).

Definition sameRule (m : HeaderMatch) (tg : string) (r : ListenerRule) : bool :=
  isIsolation r && bool_decide (condition r = m) && bool_decide (target r = tg).

Definition nextPriority (rs : list ListenerRule) : nat :=
  S (foldr (fun r acc => Nat.max (priority r) acc) 0%nat rs).

Definition setListener (lb : LoadBalancer) (ref : string) (l : Listener)
  : LoadBalancer :=
  {| albArn := albArn lb;
     listeners := <[ref := l]> (listeners lb);
     targetGroups := targetGroups lb |}.

(** Modelled from the spec: [isolateTestTraffic] of section 4.2, whose
    handler (custom_resources/after_allow_test_traffic.py) is missing.  A
    missing load balancer, listener or target group is [ResourceNotFound];
    the current rules are read first, and a rule with the same header match
    and target is reused instead of created again. *)
Definition isolateTestTraffic
    (albRef testListenerRef targetSlot : string) (matchHeader : HeaderMatch)
    (lb : LoadBalancer)
  : LoadBalancer * (ControllerError + RuleHandle) :=
  if negb (bool_decide (albRef = albArn lb)) then (lb, inl ResourceNotFound)
  else if negb (bool_decide (targetSlot ∈ targetGroups lb)) then (lb, inl ResourceNotFound)
  else
    match listeners lb !! testListenerRef with
    | None => (lb, inl ResourceNotFound)
    | Some l =>
        match List.find (sameRule matchHeader targetSlot) (rules l) with
        | Some r =>
            (lb, inr {| handle_listener := testListenerRef;
                        handle_priority := priority r |})
        | None =>
            let r := {| priority := nextPriority (rules l);
                        condition := matchHeader;
                        target := targetSlot;
                        origin := TestIsolation |} in
            (setListener lb testListenerRef
               {| defaultAction := defaultAction l;
                  rules := (rules l ++ [r])%list |},
             inr {| handle_listener := testListenerRef;
                    handle_priority := priority r |})
        end
    end.

(** Modelled from the spec: [clearRules] of section 4.2 (handlers
    before_install.py and before_allow_traffic.py are missing): removes the
    rules added by [isolateTestTraffic] from the listener. *)
Definition clearRules (albRef listenerRef : string) (lb : LoadBalancer)
  : LoadBalancer * (ControllerError + unit) :=
  if negb (bool_decide (albRef = albArn lb)) then (lb, inl ResourceNotFound)
  else
    match listeners lb !! listenerRef with
    | None => (lb, inl ResourceNotFound)
    | Some l =>
        (setListener lb listenerRef
           {| defaultAction := defaultAction l;
              rules := List.filter (fun r => negb (isIsolation r)) (rules l) |},
         inr ())
    end.

(** Modelled from the spec: the default action of the production listener
    is rewritten to the given forward ([promote] of section 4.2 forwards
    everything to one slot; a traffic-shift step forwards a share). *)
Definition setDefaultAction (albRef prodListenerRef : string) (f : Forward)
    (lb : LoadBalancer)
  : LoadBalancer * (ControllerError + unit) :=
  if negb (bool_decide (albRef = albArn lb)) then (lb, inl ResourceNotFound)
  else if negb (bool_decide (Forall (fun tw => tw.1 ∈ targetGroups lb) f))
  then (lb, inl ResourceNotFound)
  else
    match listeners lb !! prodListenerRef with
    | None => (lb, inl ResourceNotFound)
    | Some l =>
        (setListener lb prodListenerRef
           {| defaultAction := f; rules := rules l |},
         inr ())
    end.

Definition promote (albRef prodListenerRef targetSlot : string)
    (lb : LoadBalancer)
  : LoadBalancer * (ControllerError + unit) :=
  setDefaultAction albRef prodListenerRef [(targetSlot, 100%nat)] lb.

(** [n] identical calls in a row; the handles the calls returned, in order. *)
Fixpoint repeatIsolate (n : nat)
    (albRef testListenerRef targetSlot : string) (matchHeader : HeaderMatch)
    (lb : LoadBalancer)
  : LoadBalancer * list (ControllerError + RuleHandle) :=
  match n with
  | O => (lb, [])
  | S n' =>
      let '(lb1, r) :=
        isolateTestTraffic albRef testListenerRef targetSlot matchHeader lb in
      let '(lb2, rs) :=
        repeatIsolate n' albRef testListenerRef targetSlot matchHeader lb1 in
      (lb2, r :: rs)
  end.

End ListenerRules.

(** ** The cutover sequence

    The deployment process that drives the hooks, shifts the traffic and
    rolls back on an alarm is the deployment service; its behaviour is the
    state machine of sections 4.3 and 4.4 of the design. *)

Module Cutover.

Import ListenerRules.

Inductive AlarmStatus : Type := OK | ALARM | UNKNOWN.

Inductive FailureReason : Type :=
| HookFailed (h : LifecycleHookName)
| AlarmTriggered
| RollbackFailed.

Inductive Phase : Type :=
| Created
| Installed
| Testing
| Shifting (done : nat)
| Succeeded
| Failed (r : FailureReason).

Inductive TrafficShiftPolicy : Type :=
| Linear (percent : nat)
| Canary (percent : nat)
| AllAtOnce.

(** The share of traffic on the replacement slot after each step. *)
Definition schedule (p : TrafficShiftPolicy) : list nat :=
  match p with
  | Linear pc => (fun k => Nat.min 100 (k * pc)) <$> seq 1 (Nat.div 100 pc + (if Nat.eqb (Nat.modulo 100 pc) 0 then 0 else 1))
  | Canary pc => [Nat.min 100 pc; 100%nat]
  | AllAtOnce => [100%nat]
  end.

Record Deployment : Type := {
  lb : LoadBalancer;
  albRef : string;
  prodListenerRef : string;
  testListenerRef : string;
  original : string;
  replacement : string;
  matchHeader : HeaderMatch;
  policy : TrafficShiftPolicy;
  phase : Phase
}.

Definition withState (d : Deployment) (lb' : LoadBalancer) (ph : Phase)
  : Deployment :=
  {| lb := lb'; albRef := albRef d; prodListenerRef := prodListenerRef d;
     testListenerRef := testListenerRef d; original := original d;
     replacement := replacement d; matchHeader := matchHeader d;
     policy := policy d; phase := ph |}.

(** What the deployment process does next. *)
Inductive Event : Type :=
| RunHook
| ShiftStep (alarm : AlarmStatus).

Definition shares (d : Deployment) (pct : nat) : Forward :=
  if Nat.leb 100 pct then [(replacement d, 100%nat)]
  else [(original d, (100 - pct)%nat); (replacement d, pct)].

(** Modelled from the spec: the compensating action of an abort (sections
    4.3, 5 and 7; the deployment process is missing): the production
    listener is reverted to the original slot and any test-isolation rule
    is cleared, on the production and on the test listener.  A mutation
    that fails makes the rollback the fatal [RollbackFailed]. *)
Definition abort (d : Deployment) : Deployment :=
  match promote (albRef d) (prodListenerRef d) (original d) (lb d) with
  | (lb1, inr _) =>
      match clearRules (albRef d) (prodListenerRef d) lb1 with
      | (lb2, inr _) =>
          match clearRules (albRef d) (testListenerRef d) lb2 with
          | (lb3, inr _) => withState d lb3 (Failed AlarmTriggered)
          | (lb3, inl _) => withState d lb3 (Failed RollbackFailed)
          end
      | (lb2, inl _) => withState d lb2 (Failed RollbackFailed)
      end
  | (lb1, inl _) => withState d lb1 (Failed RollbackFailed)
  end.

(** Modelled from the spec: the hook table of section 4.3, the ordering of
    section 4.2 and the alarm polling of section 4.4 (the hook handlers of
    lib/common/custom_resources and the deployment process are missing).
    BeforeInstall clears the rules of the production listener,
    AfterAllowTestTraffic isolates test traffic on the test listener,
    BeforeAllowTraffic removes the test-isolation rule again; each hook
    reports, and a failed hook halts the deployment; an alarm during a
    shift step aborts the deployment; an unknown alarm state does not take
    the last step. *)
Definition step (d : Deployment) (e : Event) : Deployment :=
  match phase d, e with
  | Created, RunHook =>
      match clearRules (albRef d) (prodListenerRef d) (lb d) with
      | (lb', inr _) => withState d lb' Installed
      | (_, inl _) => withState d (lb d) (Failed (HookFailed BeforeInstall))
      end
  | Installed, RunHook =>
      match isolateTestTraffic (albRef d) (testListenerRef d) (replacement d)
                               (matchHeader d) (lb d) with
      | (lb', inr _) => withState d lb' Testing
      | (_, inl _) => withState d (lb d) (Failed (HookFailed AfterAllowTestTraffic))
      end
  | Testing, RunHook =>
      match clearRules (albRef d) (testListenerRef d) (lb d) with
      | (lb', inr _) => withState d lb' (Shifting 0)
      | (_, inl _) => withState d (lb d) (Failed (HookFailed BeforeAllowTraffic))
      end
  | Shifting k, ShiftStep ALARM => abort d
  | Shifting k, ShiftStep status =>
      match schedule (policy d) !! k with
      | None => withState d (lb d) Succeeded
      | Some pct =>
          let last := Nat.eqb (S k) (length (schedule (policy d))) in
          match status, last with
          | UNKNOWN, true => d
          | _, _ =>
              match setDefaultAction (albRef d) (prodListenerRef d)
                                     (shares d pct) (lb d) with
              | (lb', inr _) =>
                  withState d lb' (if last then Succeeded else Shifting (S k))
              | (_, inl _) =>
                  match promote (albRef d) (prodListenerRef d) (original d) (lb d) with
                  | (lb', inr _) => withState d lb' (Failed RollbackFailed)
                  | (_, inl _) => withState d (lb d) (Failed RollbackFailed)
                  end
              end
          end
      end
  | _, _ => d
  end.

Definition run (d : Deployment) (es : list Event) : Deployment :=
  foldl step d es.

(** The target group a forward sends all the traffic to, if it does. *)
Definition soleTarget (f : Forward) : option string :=
  match f with
  | [(tg, share)] => if Nat.eqb share 100 then Some tg else None
  | _ => None
  end.

(** The slot that takes all the production traffic, if one does. *)
Definition activeSlot (lb : LoadBalancer) (prodListenerRef : string)
  : option string :=
  match listeners lb !! prodListenerRef with
  | Some l => soleTarget (defaultAction l)
  | None => None
  end.

(** Modelled from the spec: a deployment begins on a load balancer with a
    production and a test listener and two target groups, one of which
    takes all the production traffic; the other is the replacement slot
    (sections 3 and 6). *)
Definition begin (lb0 : LoadBalancer)
    (alb prodRef testRef tgX tgY : string) (m : HeaderMatch)
    (p : TrafficShiftPolicy) : option Deployment :=
  if bool_decide (albArn lb0 = alb ∧ prodRef ≠ testRef ∧ tgX ≠ tgY
                  ∧ dom (listeners lb0) = {[prodRef; testRef]}
                  ∧ targetGroups lb0 = {[tgX; tgY]})
  then
    match activeSlot lb0 prodRef with
    | Some a =>
        if bool_decide (a = tgX) then
          Some {| lb := lb0; albRef := alb; prodListenerRef := prodRef;
                  testListenerRef := testRef; original := tgX; replacement := tgY;
                  matchHeader := m; policy := p; phase := Created |}
        else if bool_decide (a = tgY) then
          Some {| lb := lb0; albRef := alb; prodListenerRef := prodRef;
                  testListenerRef := testRef; original := tgY; replacement := tgX;
                  matchHeader := m; policy := p; phase := Created |}
        else None
    | None => None
    end
  else None.

(** No test-isolation rule on the listener [ref]. *)
Definition isolationFree (lb : LoadBalancer) (ref : string) : Prop :=
  ∀ l, listeners lb !! ref = Some l -> isolationRules l = [].

(** What holds of the load balancer in each phase of a deployment. *)
Definition phaseInvariant (d : Deployment) : Prop :=
  match phase d with
  | Created => activeSlot (lb d) (prodListenerRef d) = Some (original d)
  | Installed | Testing =>
      activeSlot (lb d) (prodListenerRef d) = Some (original d)
      ∧ isolationFree (lb d) (prodListenerRef d)
  | Shifting _ =>
      isolationFree (lb d) (prodListenerRef d)
      ∧ isolationFree (lb d) (testListenerRef d)
  | Failed AlarmTriggered =>
      activeSlot (lb d) (prodListenerRef d) = Some (original d)
      ∧ isolationFree (lb d) (prodListenerRef d)
      ∧ isolationFree (lb d) (testListenerRef d)
  | _ => True
  end.

Definition invariant (d : Deployment) : Prop :=
  prodListenerRef d ≠ testListenerRef d
  ∧ dom (listeners (lb d)) = {[prodListenerRef d; testListenerRef d]}
  ∧ phaseInvariant d.

(** No test-isolation rule on any listener. *)
Definition noIsolationRule (lb : LoadBalancer) : Prop :=
  ∀ ref l, listeners lb !! ref = Some l -> isolationRules l = [].

(** The production listener sends all its traffic to [tg]. *)
Definition routesAllTo (lb : LoadBalancer) (prodRef tg : string) : Prop :=
  activeSlot lb prodRef = Some tg.

End Cutover.

(** ** Concrete instances used in the examples *)

Module HooksExamples.
Import Hooks.

Definition alb0 : ApplicationLoadBalancer :=
  {| loadBalancerArn := "arn:alb"; loadBalancerDnsName := "alb.internal" |}.
Definition blue0 : ApplicationTargetGroup :=
  {| targetGroupArn := "arn:tg-blue"; targetGroupName := "blue" |}.
Definition green0 : ApplicationTargetGroup :=
  {| targetGroupArn := "arn:tg-green"; targetGroupName := "green" |}.
Definition prod0 : ApplicationListener := {| listenerArn := "arn:listener-prod" |}.
Definition test0 : ApplicationListener := {| listenerArn := "arn:listener-test" |}.

Definition props0 : EcsBlueGreenDeploymentHookProps :=
  {| targetGroupX := Some blue0; targetGroupY := Some green0;
     alb := Some alb0; prodListener := Some prod0 |}.

Definition hooks0 : EcsBlueGreenDeploymentHooks :=
  match EcsBlueGreenDeploymentHooks_new props0 with
  | Ok h => h
  | Throw _ =>
      {| deploymentHooks := []; httpHeaderName := ""; httpHeaderValueList := "";
         functions := [] |}
  end.

End HooksExamples.

Module PipelineExamples.
Import Pipeline.

(** The pipeline of the repository's test: API 'books', linear policy. *)
Definition service0 : EcsBlueGreenService :=
  {| ecsService := {| serviceName := "books-service" |};
     alb := HooksExamples.alb0;
     albProdListener := HooksExamples.prod0;
     albTestListener := HooksExamples.test0;
     blueTargetGroup := HooksExamples.blue0;
     greenTargetGroup := HooksExamples.green0 |}.

Definition newService0 (scope : ConstructPath) (id : string)
    (props : EcsBlueGreenServiceProps) : Result EcsBlueGreenService :=
  Ok service0.

Definition newAlarms0 (scope : ConstructPath) (id : string)
    (props : EcsServiceAlarmsProps) : Result (list string) :=
  Ok ["blue-unhealthy-hosts"; "blue-5xx"; "green-unhealthy-hosts"; "green-5xx"].

Definition stringify0 (alarms : list string) : string :=
  "[" +:+ String.concat "," alarms +:+ "]".

Definition pipelineProps0 : EcsBlueGreenPipelineProps :=
  {| codeRepoName := Some "books";
     ecrRepoName := Some "books-ecr";
     codeBuildProjectName := Some "books-build";
     ecsTaskRoleArn := Some "arn:aws:iam::123456789012:role/ecs-task-role";
     containerPort := Some 9000;
     apiName := Some "books";
     vpc := Some {| vpcId := "vpc-0" |};
     cluster := Some {| clusterName := "cluster-0" |};
     taskSetTerminationTimeInMinutes := Some 10;
     deploymentReadyWaitTimeinMinutes := None;
     deploymentConfigName := Some "CodeDeployDefault.ECSLinear10PercentEvery1Minutes" |}.

Definition pipeline0 : Result (EcsBlueGreenPipeline string) :=
  EcsBlueGreenPipeline_new stringify0 newService0 newAlarms0
    ["EcsBlueGreenStack"] "EcsBlueGreenPipeline" pipelineProps0.

End PipelineExamples.

Module RegistrarExamples.
Import Registrar.

Definition books : DeploymentGroupSpec :=
  {| applicationName := "books-app";
     deploymentGroupName := "books";
     deploymentConfigName := "CodeDeployDefault.ECSLinear10PercentEvery1Minutes";
     serviceRoleArn := "arn:role/codedeploy";
     blueTargetGroup := "blue";
     greenTargetGroup := "green";
     prodListenerArn := "arn:listener-prod";
     testListenerArn := "arn:listener-test";
     alarms := ["blue-5xx"; "green-5xx"];
     ecsClusterName := "cluster-0";
     ecsServiceName := "books-service";
     terminationWaitTimeMinutes := 10;
     deploymentReadyWaitTimeMinutes := 0 |}.

End RegistrarExamples.

Module ListenerRulesExamples.
Import ListenerRules.

Definition counterHeader : HeaderMatch :=
  {| headerName := "counter_no"; acceptedValues := headerValues "88888,99999" |}.

Definition lb0 : LoadBalancer :=
  {| albArn := "arn:alb";
     listeners :=
       <["arn:listener-test" := {| defaultAction := [("arn:tg-blue", 100%nat)];
                                   rules := [] |}]>
       (<["arn:listener-prod" := {| defaultAction := [("arn:tg-blue", 100%nat)];
                                    rules := [] |}]> ∅);
     targetGroups := {["arn:tg-blue"; "arn:tg-green"]} |}.

End ListenerRulesExamples.

Module CutoverExamples.
Import ListenerRules Cutover ListenerRulesExamples.

(** The scenario of the design: group 'books', linear policy in ten steps
    of ten percent, blue slot active. *)
Definition books : option Deployment :=
  begin lb0 "arn:alb" "arn:listener-prod" "arn:listener-test"
        "arn:tg-blue" "arn:tg-green" counterHeader (Linear 10).

Definition hooksThenShift (polls : list AlarmStatus) : list Event :=
  ([RunHook; RunHook; RunHook] ++ (ShiftStep <$> polls))%list.

(** The load balancer of the example with a test-isolation rule left on
    both listeners by an earlier deployment. *)
Definition staleRule : ListenerRule :=
  {| priority := 7; condition := counterHeader; target := "arn:tg-blue";
     origin := TestIsolation |}.

Definition lbStale : LoadBalancer :=
  {| albArn := "arn:alb";
     listeners :=
       <["arn:listener-test" := {| defaultAction := [("arn:tg-blue", 100%nat)];
                                   rules := [staleRule] |}]>
       (<["arn:listener-prod" := {| defaultAction := [("arn:tg-blue", 100%nat)];
                                    rules := [staleRule] |}]> ∅);
     targetGroups := {["arn:tg-blue"; "arn:tg-green"]} |}.

Definition booksStale : option Deployment :=
  begin lbStale "arn:alb" "arn:listener-prod" "arn:listener-test"
        "arn:tg-blue" "arn:tg-green" counterHeader (Linear 10).

End CutoverExamples.

(** ** lib/common/roles.ts: EcsBlueGreenRoles *)

Module Roles.

Inductive Effect : Type := ALLOW | DENY.

(** [new iam.PolicyStatement({effect, actions, resources})] *)
Record PolicyStatement : Type := {
  effect : Effect;
  actions : list string;
  resources : list string
}.

(** [new iam.Role(this, id, {assumedBy: new ServicePrincipal(p)})] with the
    managed policies and statements added to it afterwards. *)
Record Role : Type := {
  role_path : ConstructPath;
  assumedBy : string;
  managedPolicies : list string;
  statements : list PolicyStatement
}.

Definition newRole (scope : ConstructPath) (id principal : string) : Role :=
  {| role_path := child scope id; assumedBy := principal;
     managedPolicies := []; statements := [] |}.

(** [role.addManagedPolicy(ManagedPolicy.fromAwsManagedPolicyName(n))] *)
Definition addManagedPolicy (r : Role) (n : string) : Role :=
  {| role_path := role_path r; assumedBy := assumedBy r;
     managedPolicies := (managedPolicies r ++ [n])%list;
     statements := statements r |}.

(** [role.addToPolicy(statement)] *)
Definition addToPolicy (r : Role) (s : PolicyStatement) : Role :=
  {| role_path := role_path r; assumedBy := assumedBy r;
     managedPolicies := managedPolicies r;
     statements := (statements r ++ [s])%list |}.

Definition roleArn (r : Role) : string := tokenOf (role_path r) "Arn".

Record EcsBlueGreenRoles : Type := {
  ecsTaskRole : Role;
  codeBuildRole : Role
}.

Definition EcsBlueGreenRoles_new (scope : ConstructPath) (id : string)
  : EcsBlueGreenRoles :=
  let this := child scope id in
  (* ECS task execution role *)
  let ecsTaskRole := newRole this "ecsTaskRoleForWorkshop" "ecs-tasks.amazonaws.com" in
  let ecsTaskRole :=
    addManagedPolicy ecsTaskRole "service-role/AmazonECSTaskExecutionRolePolicy" in
  (* IAM role for the Code Build project *)
  let codeBuildRole := newRole this "codeBuildServiceRole" "codebuild.amazonaws.com" in
  let inlinePolicyForCodeBuild :=
    {| effect := ALLOW;
       actions := ["ecr:GetAuthorizationToken";
                   "ecr:BatchCheckLayerAvailability";
                   "ecr:InitiateLayerUpload";
                   "ecr:UploadLayerPart";
                   "ecr:CompleteLayerUpload";
                   "ecr:PutImage";
                   "s3:Get*";
                   "s3:List*";
                   "s3:PutObject";
                   "secretsmanager:GetSecretValue"];
       resources := ["*"] |} in
  let codeBuildRole := addToPolicy codeBuildRole inlinePolicyForCodeBuild in
  {| ecsTaskRole := ecsTaskRole; codeBuildRole := codeBuildRole |}.

End Roles.

(** ** bin/container-image-stack: BlueGreenContainerImageStack *)

Module ContainerImageStack.

(** The props the stacks and the test give to [EcsBlueGreenBuildImage]
    (lib/build-image). *)
Record EcsBlueGreenBuildImageProps : Type := {
  codeBuildRole : option Roles.Role;
  ecsTaskRole : option Roles.Role;
  codeRepoName : option string;
  codeRepoDesc : option string;
  dockerHubUsername : option string;
  dockerHubPassword : option string
}.

(** [process.env.NAME] *)
Definition processEnv (env : gmap string string) (name : string) : option string :=
  env !! name.

(** The props object the stack constructor builds for the build image. *)
Definition buildImageProps (env : gmap string string) (this : ConstructPath)
    (ecsBlueGreenRoles : Roles.EcsBlueGreenRoles) : EcsBlueGreenBuildImageProps :=
  (* Defining the CFN input parameters *)
  let codeRepoDesc := tokenOf (child this "codeRepoDesc") "Ref" in
  {| codeBuildRole := Some (Roles.codeBuildRole ecsBlueGreenRoles);
     ecsTaskRole := Some (Roles.ecsTaskRole ecsBlueGreenRoles);
     codeRepoName := processEnv env "CODE_REPO_NAME";
     codeRepoDesc := Some codeRepoDesc;
     dockerHubUsername := None;
     dockerHubPassword := None |}.

Section WithBuildImage.

Variable EcsBlueGreenBuildImage : Type.
Variable EcsBlueGreenBuildImage_new :
  ConstructPath -> string -> EcsBlueGreenBuildImageProps ->
  Result EcsBlueGreenBuildImage.

Record BlueGreenContainerImageStack : Type := {
  stack_path : ConstructPath;
  roles : Roles.EcsBlueGreenRoles;
  buildImage : EcsBlueGreenBuildImage
}.

Definition BlueGreenContainerImageStack_new
    (env : gmap string string) (scope : ConstructPath) (id : string)
  : Result BlueGreenContainerImageStack :=
  let this := child scope id in
  (* Build the stack *)
  let ecsBlueGreenRoles := Roles.EcsBlueGreenRoles_new this "EcsBlueGreenRoles" in
  image ← EcsBlueGreenBuildImage_new this "EcsBlueGreenBuildImage"
             (buildImageProps env this ecsBlueGreenRoles);
  Ok {| stack_path := this; roles := ecsBlueGreenRoles; buildImage := image |}.

End WithBuildImage.

Arguments stack_path {EcsBlueGreenBuildImage} _.
Arguments roles {EcsBlueGreenBuildImage} _.
Arguments buildImage {EcsBlueGreenBuildImage} _.
Arguments BlueGreenContainerImageStack_new {EcsBlueGreenBuildImage} _ _ _ _.

End ContainerImageStack.

(** ** bin/scripts/synth-container-image-stack.sh *)

Module SynthContainerImageScript.

(** The state of the shell: its variables and the names marked for
    export. *)
Record Shell : Type := {
  variables : gmap string string;
  exported : gset string
}.

(** A shell starts with the variables of its environment, all marked for
    export. *)
Definition startShell (env0 : gmap string string) : Shell :=
  {| variables := env0; exported := dom env0 |}.

(** [NAME=value]: the variable is set and keeps the export mark it has. *)
Definition assign (name value : string) (sh : Shell) : Shell :=
  {| variables := <[name := value]> (variables sh);
     exported := exported sh |}.

(** [export NAME=value] *)
Definition export (name value : string) (sh : Shell) : Shell :=
  {| variables := <[name := value]> (variables sh);
     exported := {[name]} ∪ exported sh |}.

(** The environment of a command the shell starts. *)
Definition environ (sh : Shell) : gmap string string :=
  filter (fun kv => kv.1 ∈ exported sh) (variables sh).

(** [$NAME] *)
Definition expand (sh : Shell) (name : string) : string :=
  default "" (variables sh !! name).

(** The commands the script runs.  [EchoE] holds the argument of
    [echo -e] before echo reads its escapes; [CdkBootstrap] holds the
    unquoted word [aws://$AWS_ACCOUNT_ID/$AWS_DEFAULT_REGION] after the
    variables are expanded and before the shell splits it into fields and
    expands file names; the other commands hold the environment they
    see. *)
Inductive Command : Type :=
| EchoE (argument : string)
| AwsStsGetCallerIdentity (env : gmap string string)
| AwsConfigureGetRegion (env : gmap string string)
| CdkBootstrap (unsplit : string) (env : gmap string string)
| CdkSynth (app : string) (env : gmap string string).

(** The script run in the environment [env0]; [account] and [region] are
    what [aws sts get-caller-identity] and [aws configure get region]
    print, without the trailing newlines.  The script does not stop when a
    command fails. *)
Definition script (env0 : gmap string string) (account region : string)
  : list Command :=
  let sh := startShell env0 in
  let sh := assign "GREEN" "\033[1;32m" sh in
  let sh := assign "YELLOW" "\033[1;33m" sh in
  let c1 := EchoE (expand sh "GREEN"
                   +:+ "Start synthing the container image stack resources....") in
  let c2 := AwsStsGetCallerIdentity (environ sh) in
  let sh := export "AWS_ACCOUNT_ID" account sh in
  let c3 := AwsConfigureGetRegion (environ sh) in
  let sh := export "AWS_DEFAULT_REGION" region sh in
  let sh := export "CODE_REPO_NAME" "app-demo" sh in
  let c4 := CdkBootstrap ("aws://" +:+ expand sh "AWS_ACCOUNT_ID" +:+ "/"
                          +:+ expand sh "AWS_DEFAULT_REGION") (environ sh) in
  let c5 := CdkSynth "npx ts-node bin/container-image-stack.ts" (environ sh) in
  let c6 := EchoE (expand sh "GREEN"
                   +:+ "Completed synthing the container image stack resources....") in
  [c1; c2; c3; c4; c5; c6].

(** The environment in which the script synthesises the stack. *)
Definition synthEnv (cs : list Command) : option (gmap string string) :=
  match List.find (fun c => match c with CdkSynth _ _ => true | _ => false end) cs with
  | Some (CdkSynth _ env) => Some env
  | _ => None
  end.

End SynthContainerImageScript.

(** ** bin/pipeline-stack: BlueGreenPipelineStack *)

Module BlueGreenPipelineStack.

Import Pipeline.

(** What the stack reads from [EcsBlueGreenCluster] (lib/ecs/cluster). *)
Record EcsBlueGreenCluster : Type := {
  cluster : ICluster;
  vpc : IVpc
}.

Record EcsBlueGreenClusterProps : Type := { cidr : option string }.

(** How a deployment of the stack ends: the constructor returned and the
    parameter values were accepted, the constructor threw, or a parameter
    value was refused. *)
Inductive Outcome (A : Type) : Type :=
| Built (a : A)
| Threw (e : JsError)
| ParameterRejected (name : string).

Arguments Built {A} a.
Arguments Threw {A} e.
Arguments ParameterRejected {A} name.

Section WithCollaborators.

Variable TargetGroupAlarm : Type.
Variable JSON_stringify : list TargetGroupAlarm -> string.
Variable EcsBlueGreenService_new :
  ConstructPath -> string -> EcsBlueGreenServiceProps -> Result EcsBlueGreenService.
Variable EcsServiceAlarms_new :
  ConstructPath -> string -> EcsServiceAlarmsProps -> Result (list TargetGroupAlarm).
Variable EcsBlueGreenCluster_new :
  ConstructPath -> string -> EcsBlueGreenClusterProps -> Result EcsBlueGreenCluster.

(** JavaScript's [Number(x)] on an environment variable ([None] for NaN),
    and the number a value of a [Number] parameter stands for ([None] when
    it is not a number). *)
Variable Number : option string -> option Z.
Variable numberOf : string -> option Z.

(** [parameter.valueAsNumber], for the value supplied at deployment. *)
Definition valueAsNumber (p : PipelineStack.CfnParameterProps)
    (supplied : option string) : option Z :=
  match PipelineStack.valueAsString p supplied with
  | Some v => numberOf v
  | None => None
  end.

(** The props object the stack constructor builds for the pipeline, with
    the parameters at the values they take in the deployment. *)
Definition pipelineProps (env : gmap string string)
    (config : string) (termination ready : Z)
    (ecsBlueGreenCluster : EcsBlueGreenCluster) : EcsBlueGreenPipelineProps :=
  {| Pipeline.apiName := env !! "API_NAME";
     Pipeline.deploymentConfigName := Some config;
     Pipeline.cluster := Some (cluster ecsBlueGreenCluster);
     Pipeline.vpc := Some (vpc ecsBlueGreenCluster);
     Pipeline.containerPort := Number (env !! "CONTAINER_PORT");
     Pipeline.ecrRepoName := env !! "ECR_REPO_NAME";
     Pipeline.codeBuildProjectName := env !! "CODE_BUILD_PROJECT_NAME";
     Pipeline.codeRepoName := env !! "CODE_REPO_NAME";
     Pipeline.ecsTaskRoleArn := env !! "ECS_TASK_ROLE_ARN";
     Pipeline.taskSetTerminationTimeInMinutes := Some termination;
     Pipeline.deploymentReadyWaitTimeinMinutes := Some ready |}.

(** The stack built in the environment [env] and deployed with the
    parameter values [supplied] (by parameter name). *)
Definition BlueGreenPipelineStack_new
    (env supplied : gmap string string) (scope : ConstructPath) (id : string)
  : Outcome (EcsBlueGreenPipeline TargetGroupAlarm) :=
  let this := child scope id in
  match PipelineStack.valueAsString PipelineStack.deploymentConfigName
          (supplied !! "deploymentConfigName") with
  | None => ParameterRejected "deploymentConfigName"
  | Some config =>
  match valueAsNumber PipelineStack.taskSetTerminationTimeInMinutes
          (supplied !! "taskSetTerminationTimeInMinutes") with
  | None => ParameterRejected "taskSetTerminationTimeInMinutes"
  | Some termination =>
  match valueAsNumber PipelineStack.deploymentReadyWaitTimeinMinutes
          (supplied !! "deploymentReadyWaitTimeinMinutes") with
  | None => ParameterRejected "deploymentReadyWaitTimeinMinutes"
  | Some ready =>
  (* Build the stack *)
  match EcsBlueGreenCluster_new this "EcsBlueGreenCluster"
          {| cidr := env !! "CIDR_RANGE" |} with
  | Throw e => Threw e
  | Ok ecsBlueGreenCluster =>
  match EcsBlueGreenPipeline_new JSON_stringify EcsBlueGreenService_new
          EcsServiceAlarms_new this "EcsBlueGreenPipeline"
          (pipelineProps env config termination ready ecsBlueGreenCluster) with
  | Throw e => Threw e
  | Ok p => Built p
  end end end end end.

End WithCollaborators.

Arguments BlueGreenPipelineStack_new {TargetGroupAlarm} _ _ _ _ _ _ _ _ _ _.

End BlueGreenPipelineStack.

(** ** Requests and the action of the AfterAllowTestTraffic handler *)

Module TestTraffic.

Import ListenerRules.

(** The header match the hooks construct configures. *)
Definition testHeader : HeaderMatch :=
  {| headerName := "counter_no"; acceptedValues := ["88888"; "99999"] |}.

(** A request, given by its headers, carries the tag of a header match
    when it has the header with one of the accepted values. *)
Definition carries (m : HeaderMatch) (req : gmap string string) : bool :=
  match req !! headerName m with
  | Some v => bool_decide (v ∈ acceptedValues m)
  | None => false
  end.

(** The rule of least priority number, the earlier one on a tie. *)
Definition firstByPriority (rs : list ListenerRule) : option ListenerRule :=
  foldr (fun r acc =>
           match acc with
           | Some r' => if Nat.leb (priority r) (priority r') then Some r else Some r'
           | None => Some r
           end) None rs.

(** Modelled from the spec: a listener rule maps the requests it matches
    to a target group (glossary); a listener sends a request to the target
    of the first matching rule in priority order, and follows its default
    action when no rule matches. *)
Definition route (l : Listener) (req : gmap string string) : Forward :=
  match firstByPriority
          (List.filter (fun r => carries (condition r) req) (rules l)) with
  | Some r => [(target r, 100%nat)]
  | None => defaultAction l
  end.

(** Which of the two target groups of the handler is the replacement. *)
Inductive Slot : Type := SlotX | SlotY.

Definition slotKey (s : Slot) : string :=
  match s with SlotX => "ALB_TG_X" | SlotY => "ALB_TG_Y" end.

(** Modelled from the spec: the action of the AfterAllowTestTraffic handler
    (custom_resources/after_allow_test_traffic.py is missing):
    [isolateTestTraffic] of sections 4.2 and 4.3, on the load balancer, the
    listener, the replacement target group and the header match that the
    handler finds in its environment.  The only listener in that
    environment is ALB_PROD_LISTENER. *)
Definition afterAllowTestTraffic (f : LambdaFunction) (replacement : Slot)
    (lb : LoadBalancer) : LoadBalancer * (ControllerError + RuleHandle) :=
  let env := environment (fn_props f) in
  match env !! "APP_ALB", env !! "ALB_PROD_LISTENER", env !! slotKey replacement,
        env !! "HTTP_HEADER_NAME", env !! "HTTP_HEADER_VALUE_LIST" with
  | Some a, Some l, Some tg, Some name, Some values =>
      isolateTestTraffic a l tg
        {| headerName := name; acceptedValues := headerValues values |} lb
  | _, _, _, _, _ => (lb, inl ResourceNotFound)
  end.

End TestTraffic.

(** ** Readings used in the properties of the constructs *)

(** The prop of the hooks construct whose absence makes the constructor
    throw first, in the order in which the constructor reads them. *)
Definition firstMissingHookProp (props : Hooks.EcsBlueGreenDeploymentHookProps)
  : option string :=
  match Hooks.alb props, Hooks.prodListener props,
        Hooks.targetGroupX props, Hooks.targetGroupY props with
  | None, _, _, _ => Some "props.alb"
  | Some _, None, _, _ => Some "props.prodListener"
  | Some _, Some _, None, _ => Some "props.targetGroupX"
  | Some _, Some _, Some _, None => Some "props.targetGroupY"
  | Some _, Some _, Some _, Some _ => None
  end.

(** The artifacts an action reads and the artifacts it produces. *)
Definition actionInputs (a : Pipeline.Action) : list string :=
  match a with
  | Pipeline.CodeCommitSourceAction _ _ _ _ => []
  | Pipeline.CodeBuildAction _ _ input _ => [input]
  | Pipeline.CodeDeployEcsDeployAction _ _ appSpec taskDef => [appSpec; taskDef]
  end.

Definition actionOutputs (a : Pipeline.Action) : list string :=
  match a with
  | Pipeline.CodeCommitSourceAction _ _ output _ => [output]
  | Pipeline.CodeBuildAction _ _ _ outputs => outputs
  | Pipeline.CodeDeployEcsDeployAction _ _ _ _ => []
  end.

(** Every artifact a stage reads was produced by an earlier stage;
    [available] are the artifacts produced so far. *)
Fixpoint artifactsChained (available : list string) (ss : list Pipeline.StageProps)
  : bool :=
  match ss with
  | [] => true
  | s :: rest =>
      forallb (fun a => forallb (fun i => bool_decide (i ∈ available))
                                (actionInputs a)) (Pipeline.actions s)
      && artifactsChained
           (available ++ mjoin (actionOutputs <$> Pipeline.actions s))%list rest
  end.

(** The fields of a properties object that hold a value. *)
Definition definedFields (ps : gmap string JsValue) : gset string :=
  dom (filter (fun kv => kv.2 ≠ JsUndefined) ps).

Module StackExamples0.

(** The environment of the pipeline stack for the API 'books'. *)
Definition stackEnv0 : gmap string string :=
  <["API_NAME" := "books"]>
  (<["CIDR_RANGE" := "10.0.0.0/16"]>
  (<["CONTAINER_PORT" := "9000"]>
  (<["ECR_REPO_NAME" := "books-ecr"]>
  (<["CODE_BUILD_PROJECT_NAME" := "books-build"]>
  (<["CODE_REPO_NAME" := "books"]>
  (<["ECS_TASK_ROLE_ARN" := "arn:aws:iam::123456789012:role/ecs-task-role"]>
     ∅)))))).

Definition newCluster0 (scope : ConstructPath) (id : string)
    (props : BlueGreenPipelineStack.EcsBlueGreenClusterProps)
  : Result BlueGreenPipelineStack.EcsBlueGreenCluster :=
  Ok {| BlueGreenPipelineStack.cluster := {| Pipeline.clusterName := "cluster-0" |};
        BlueGreenPipelineStack.vpc := {| Pipeline.vpcId := "vpc-0" |} |}.

(** Stand-ins for JavaScript's [Number] on CONTAINER_PORT and for the
    reading of the two Number parameters. *)
Definition number0 (v : option string) : option Z :=
  match v with Some _ => Some 9000 | None => None end.

Definition numberOf0 (v : string) : option Z :=
  if String.eqb v "10" then Some 10 else if String.eqb v "0" then Some 0 else None.

End StackExamples0.

(** * Properties *)

(** ** The hooks construct *)

Section HooksFacts.
Import Hooks.

(** The constructor succeeds exactly when the four props are present. *)
Lemma hooks_new_inv props h :
  EcsBlueGreenDeploymentHooks_new props = Ok h ->
  ∃ a x y l,
    props = {| targetGroupX := Some x; targetGroupY := Some y;
               alb := Some a; prodListener := Some l |}.
Proof.
  destruct props as [[x|] [y|] [a|] [l|]]; cbn; intros H; try discriminate.
  by exists a, x, y, l.
Qed.

(** With its props given, the constructor returns. *)
Lemma hooks_new_total x y a l :
  is_Ok (EcsBlueGreenDeploymentHooks_new
           {| targetGroupX := Some x; targetGroupY := Some y;
              alb := Some a; prodListener := Some l |}) = true.
Proof. reflexivity. Qed.

Lemma hooks_new_functions props h :
  EcsBlueGreenDeploymentHooks_new props = Ok h ->
  ∃ bi tt bt,
    functions h = [bi; tt; bt]
    ∧ handlerFor h BeforeInstall = Some bi
    ∧ handlerFor h AfterAllowTestTraffic = Some tt
    ∧ handlerFor h BeforeAllowTraffic = Some bt
    ∧ handlerFor h AfterAllowTraffic = None.
Proof.
  intros H. destruct (hooks_new_inv _ _ H) as (a & x & y & l & ->).
  cbn in H. injection H as <-. by eexists _, _, _.
Qed.

End HooksFacts.

Section HooksExamplesFacts.
Import Hooks.
Import HooksExamples.

Example hooks0_new : EcsBlueGreenDeploymentHooks_new props0 = Ok hooks0.
Proof. reflexivity. Qed.

Example hooks0_names :
  name <$> deploymentHooks hooks0 =
  ["blue-green-ecs-before-install";
   "blue-green-ecs-after-allow-test-traffic";
   "blue-green-ecs-before-allow-traffic"].
Proof. reflexivity. Qed.

Example missing_alb_throws :
  EcsBlueGreenDeploymentHooks_new
    {| targetGroupX := Some blue0; targetGroupY := Some green0;
       alb := None; prodListener := Some prod0 |}
  = Throw (TypeError "props.alb").
Proof. reflexivity. Qed.

Example missing_target_group_throws :
  EcsBlueGreenDeploymentHooks_new
    {| targetGroupX := None; targetGroupY := Some green0;
       alb := Some alb0; prodListener := Some prod0 |}
  = Throw (TypeError "props.targetGroupX").
Proof. reflexivity. Qed.

Example headerValues_ex : headerValues "88888,99999" = ["88888"; "99999"].
Proof. reflexivity. Qed.

(** The earlier variant registers two hooks and passes no header. *)
Example hooksV1_two_hooks :
  (fun h => (Hooks.name <$> HooksV1.deploymentHooks h,
             (fun f => dom (environment (fn_props f))) <$> HooksV1.functions h))
    <$> HooksV1.EcsBlueGreenDeploymentHooks_new
          {| HooksV1.blueTargetGroup := Some blue0;
             HooksV1.greenTargetGroup := Some green0;
             HooksV1.alb := Some alb0;
             HooksV1.prodListener := Some prod0 |}
  = Ok (["blue-green-ecs-after-allow-test-traffic";
         "blue-green-ecs-before-allow-traffic"],
        [list_to_set ["APP_ALB"; "ALB_BLUE_TG"; "ALB_GREEN_TG"; "ALB_PROD_LISTENER"];
         list_to_set ["APP_ALB"; "ALB_BLUE_TG"; "ALB_GREEN_TG"; "ALB_PROD_LISTENER"]]).
Proof. vm_compute. reflexivity. Qed.

End HooksExamplesFacts.

Section HooksProperties.
Import Hooks.

(** C1: the hooks construct creates exactly three handlers, the ones of the
    hook points BeforeInstall, AfterAllowTestTraffic and BeforeAllowTraffic
    (three of the four hook points), and its [deploymentHooks] list holds
    their function names in that order, which is the lifecycle order. *)
Theorem hooks_three_handlers_in_lifecycle_order props h :
  EcsBlueGreenDeploymentHooks_new props = Ok h ->
  name <$> deploymentHooks h = handlerFunctionName <$> explicitHooks
  ∧ functionNameOf <$> functions h = handlerFunctionName <$> explicitHooks
  ∧ (fun f => handler (fn_props f)) <$> functions h
    = handlerEntryPoint <$> explicitHooks
  ∧ length (deploymentHooks h) = 3%nat
  ∧ explicitHooks `sublist_of` lifecycleOrder
  ∧ handlerFor h AfterAllowTraffic = None.
Proof.
  intros H. destruct (hooks_new_inv _ _ H) as (a & x & y & l & ->).
  cbn in H. injection H as <-.
  repeat split.
  unfold explicitHooks, lifecycleOrder.
  do 3 apply sublist_skip. apply sublist_cons, sublist_nil.
Qed.

Lemma hooks_three_handlers_witness :
  EcsBlueGreenDeploymentHooks_new HooksExamples.props0 = Ok HooksExamples.hooks0
  ∧ name <$> deploymentHooks HooksExamples.hooks0
    = handlerFunctionName <$> explicitHooks.
Proof.
  split; [reflexivity|].
  apply (hooks_three_handlers_in_lifecycle_order
           HooksExamples.props0 HooksExamples.hooks0).
  reflexivity.
Defined.

(** C2: the AfterAllowTestTraffic handler of every hooks construct gets the
    header name 'counter_no' and the accepted values 88888 and 99999, and
    nothing else, as its header configuration. *)
Theorem test_traffic_header_is_fixed props h :
  EcsBlueGreenDeploymentHooks_new props = Ok h ->
  ∃ f,
    handlerFor h AfterAllowTestTraffic = Some f
    ∧ environment (fn_props f) !! "HTTP_HEADER_NAME" = Some "counter_no"
    ∧ headerValues <$> environment (fn_props f) !! "HTTP_HEADER_VALUE_LIST"
      = Some ["88888"; "99999"]
    ∧ httpHeaderName h = "counter_no"
    ∧ headerValues (httpHeaderValueList h) = ["88888"; "99999"].
Proof.
  intros H. destruct (hooks_new_inv _ _ H) as (a & x & y & l & ->).
  cbn in H. injection H as <-.
  eexists. split; [reflexivity|]. cbn.
  repeat split.
Qed.

Lemma test_traffic_header_witness :
  EcsBlueGreenDeploymentHooks_new HooksExamples.props0 = Ok HooksExamples.hooks0
  ∧ ∃ f,
      handlerFor HooksExamples.hooks0 AfterAllowTestTraffic = Some f
      ∧ environment (fn_props f) !! "HTTP_HEADER_NAME" = Some "counter_no".
Proof.
  split; [reflexivity|].
  destruct (test_traffic_header_is_fixed
              HooksExamples.props0 HooksExamples.hooks0 eq_refl)
    as (f & Hf & Hn & _).
  exists f. split; assumption.
Defined.

End HooksProperties.

Section HookInputs.
Import Hooks.

(** C4 (as amended): every handler gets the load balancer and the
    production listener; the AfterAllowTestTraffic handler also gets the two
    target groups and the header configuration; no handler has any other
    input, so none has the test listener. *)
Theorem hook_handler_inputs props h :
  EcsBlueGreenDeploymentHooks_new props = Ok h ->
  ∃ a x y l bi tt bt,
    props = {| targetGroupX := Some x; targetGroupY := Some y;
               alb := Some a; prodListener := Some l |}
    ∧ functions h = [bi; tt; bt]
    ∧ handlerFor h BeforeInstall = Some bi
    ∧ handlerFor h AfterAllowTestTraffic = Some tt
    ∧ handlerFor h BeforeAllowTraffic = Some bt
    ∧ environment (fn_props bi)
      = list_to_map [("APP_ALB", loadBalancerArn a);
                     ("ALB_PROD_LISTENER", listenerArn l)]
    ∧ environment (fn_props tt)
      = list_to_map [("APP_ALB", loadBalancerArn a);
                     ("ALB_TG_X", targetGroupArn x);
                     ("ALB_TG_Y", targetGroupArn y);
                     ("ALB_PROD_LISTENER", listenerArn l);
                     ("HTTP_HEADER_NAME", "counter_no");
                     ("HTTP_HEADER_VALUE_LIST", "88888,99999")]
    ∧ environment (fn_props bt)
      = list_to_map [("APP_ALB", loadBalancerArn a);
                     ("ALB_PROD_LISTENER", listenerArn l)].
Proof.
  intros H. destruct (hooks_new_inv _ _ H) as (a & x & y & l & ->).
  cbn in H. injection H as <-.
  exists a, x, y, l. eexists _, _, _.
  split; [reflexivity|]. split; [reflexivity|].
  split; [reflexivity|]. split; [reflexivity|]. split; [reflexivity|].
  cbn [environment fn_props].
  repeat split; apply map_eq; intros k; rewrite ?lookup_insert; cbn;
    rewrite ?lookup_insert, ?lookup_empty; repeat case_decide; congruence.
Qed.

End HookInputs.

(** ** The deployment group construct *)

Section DeploymentGroupFacts.
Import DeploymentGroup.

Context {TargetGroupAlarm : Type}.
Variable JSON_stringify : list TargetGroupAlarm -> string.

(** C5: the custom resource that invokes the registrar carries exactly the
    thirteen fields of the registrar invocation contract, each bound to the
    corresponding prop, and the deployment group the construct exposes is
    the one of the same application and deployment-group name. *)
Theorem registrar_invoked_with_contract_fields
    (scope : ConstructPath) (id : string)
    (props : EcsBlueGreenDeploymentGroupProps TargetGroupAlarm) :
  let g := EcsBlueGreenDeploymentGroup_new JSON_stringify scope id props in
  let ps := properties (customEcsDeploymentGroup g) in
  ps = list_to_map
         [("ApplicationName", JsString (applicationName (ecsApplication g)));
          ("DeploymentGroupName", jsString (deploymentGroupName props));
          ("DeploymentConfigName", jsString (deploymentConfigName props));
          ("ServiceRoleArn", JsString (tokenOf (codeDeployServiceRole g) "Arn"));
          ("BlueTargetGroup", jsString (blueTargetGroupName props));
          ("GreenTargetGroup", jsString (greenTargetGroupName props));
          ("ProdListenerArn", jsString (prodListenerArn props));
          ("TestListenerArn", jsString (testListenerArn props));
          ("TargetGroupAlarms", stringifyAlarms JSON_stringify (targetGroupAlarms props));
          ("EcsClusterName", jsString (ecsClusterName props));
          ("EcsServiceName", jsString (ecsServiceName props));
          ("TerminationWaitTime", jsNumber (terminationWaitTime props));
          ("DeploymentReadyWaitTime", jsNumber (deploymentReadyWaitTime props))]
  ∧ dom ps = list_to_set registrarFields
  ∧ size ps = 13%nat
  ∧ serviceToken (customEcsDeploymentGroup g)
    = tokenOf (child (node_path g) (fn_id (createDeploymentGroupLambda g))) "Arn"
  ∧ handler (fn_props (createDeploymentGroupLambda g))
    = "create_deployment_group.handler"
  ∧ group_name (ecsDeploymentGroup g) = deploymentGroupName props
  ∧ application (ecsDeploymentGroup g) = ecsApplication g
  ∧ ps !! "DeploymentGroupName"
    = Some (jsString (group_name (ecsDeploymentGroup g))).
Proof.
  cbv zeta.
  assert (Hmap :
    properties (customEcsDeploymentGroup
      (EcsBlueGreenDeploymentGroup_new JSON_stringify scope id props))
    = list_to_map
         [("ApplicationName", JsString (applicationName (ecsApplication
             (EcsBlueGreenDeploymentGroup_new JSON_stringify scope id props))));
          ("DeploymentGroupName", jsString (deploymentGroupName props));
          ("DeploymentConfigName", jsString (deploymentConfigName props));
          ("ServiceRoleArn", JsString (tokenOf (codeDeployServiceRole
             (EcsBlueGreenDeploymentGroup_new JSON_stringify scope id props)) "Arn"));
          ("BlueTargetGroup", jsString (blueTargetGroupName props));
          ("GreenTargetGroup", jsString (greenTargetGroupName props));
          ("ProdListenerArn", jsString (prodListenerArn props));
          ("TestListenerArn", jsString (testListenerArn props));
          ("TargetGroupAlarms", stringifyAlarms JSON_stringify (targetGroupAlarms props));
          ("EcsClusterName", jsString (ecsClusterName props));
          ("EcsServiceName", jsString (ecsServiceName props));
          ("TerminationWaitTime", jsNumber (terminationWaitTime props));
          ("DeploymentReadyWaitTime", jsNumber (deploymentReadyWaitTime props))]).
  { cbn [properties customEcsDeploymentGroup EcsBlueGreenDeploymentGroup_new
         ecsApplication codeDeployServiceRole].
    apply map_eq; intros k. cbn [list_to_map foldr uncurry fst snd].
    rewrite !lookup_insert. repeat case_decide; congruence. }
  split; [exact Hmap|].
  split.
  { rewrite Hmap, dom_list_to_map_L. reflexivity. }
  split.
  { rewrite Hmap. cbn [list_to_map foldr uncurry fst snd].
    rewrite !map_size_insert_None; [reflexivity|..];
      rewrite ?lookup_insert, ?lookup_empty; repeat case_decide; congruence. }
  repeat split.
Qed.

End DeploymentGroupFacts.

(** ** Test traffic on a listener *)

Section TestTrafficFacts.
Import ListenerRules TestTraffic.

(** What a successful [isolateTestTraffic] does: the listener it is given
    holds a test-isolation rule for the header match and the target, whose
    handle is returned; its default action and its other rules, and every
    other listener, are as before. *)
Lemma isolate_installs a ref tg m lb lb' h :
  isolateTestTraffic a ref tg m lb = (lb', inr h) ->
  handle_listener h = ref
  ∧ (∀ ref', ref' ≠ ref -> listeners lb' !! ref' = listeners lb !! ref')
  ∧ ∃ l l',
      listeners lb !! ref = Some l
      ∧ listeners lb' !! ref = Some l'
      ∧ defaultAction l' = defaultAction l
      ∧ (rules l' = rules l
         ∨ ∃ r, rules l' = (rules l ++ [r])%list ∧ condition r = m)
      ∧ ∃ r, r ∈ rules l' ∧ origin r = TestIsolation ∧ condition r = m
             ∧ target r = tg ∧ handle_priority h = priority r.
Proof.
  unfold isolateTestTraffic.
  destruct (negb _); [discriminate|].
  destruct (negb _); [discriminate|].
  destruct (listeners lb !! ref) as [l|] eqn:Hl; [|discriminate].
  destruct (List.find _ _) as [r|] eqn:Hf.
  - intros [= <- <-]. cbn. split; [done|]. split; [done|].
    exists l, l. rewrite Hl. repeat split; [by left|].
    apply List.find_some in Hf as [Hin Hr].
    unfold sameRule, isIsolation in Hr.
    apply andb_prop in Hr as [Hr Ht]. apply andb_prop in Hr as [Ho Hc].
    apply bool_decide_eq_true in Ho, Hc, Ht.
    exists r. repeat split; try done. by apply list_elem_of_In.
  - intros [= <- <-]. cbn. split; [done|].
    split; [by intros ref' Hne; rewrite lookup_insert_ne|].
    eexists l, _. rewrite lookup_insert_eq.
    split; [done|]. split; [reflexivity|]. cbn.
    split; [done|]. split; [right; by eexists|].
    eexists. split; [apply elem_of_app; right; apply list_elem_of_here|].
    by repeat split.
Qed.

(** A rule added at the end that a request does not match leaves the
    route of the request as it was. *)
Lemma route_untagged l l' m req :
  defaultAction l' = defaultAction l ->
  (rules l' = rules l ∨ ∃ r, rules l' = (rules l ++ [r])%list ∧ condition r = m) ->
  carries m req = false ->
  route l' req = route l req.
Proof.
  intros Hd Hr Hm. unfold route. rewrite Hd.
  destruct Hr as [->|(r & -> & Hc)]; [done|].
  rewrite List.filter_app. cbn. rewrite Hc, Hm. by rewrite app_nil_r.
Qed.

End TestTrafficFacts.

(** ** The pipeline construct *)

Section PipelineFacts.
Import Pipeline.

Context {TargetGroupAlarm : Type}.
Variable JSON_stringify : list TargetGroupAlarm -> string.
Variable EcsBlueGreenService_new :
  ConstructPath -> string -> EcsBlueGreenServiceProps -> Result EcsBlueGreenService.
Variable EcsServiceAlarms_new :
  ConstructPath -> string -> EcsServiceAlarmsProps -> Result (list TargetGroupAlarm).

Local Abbreviation new_pipeline :=
  (EcsBlueGreenPipeline_new JSON_stringify EcsBlueGreenService_new
                            EcsServiceAlarms_new).

(** A pipeline that was built has its service and alarms from the two
    collaborators, its hooks from the service's load balancer, production
    listener and target groups, and its deployment group named after the
    API. *)
Lemma pipeline_new_inv scope id props p :
  new_pipeline scope id props = Ok p ->
  ∃ h,
    Hooks.EcsBlueGreenDeploymentHooks_new
      {| Hooks.alb := Some (alb (service p));
         Hooks.targetGroupX := Some (blueTargetGroup (service p));
         Hooks.targetGroupY := Some (greenTargetGroup (service p));
         Hooks.prodListener := Some (albProdListener (service p)) |} = Ok h
    ∧ deploymentHooks p = h
    ∧ node_path p = child scope id
    ∧ DeploymentGroup.node_path (deploymentGroup p)
      = child (child scope id) "ecsApplication"
    ∧ DeploymentGroup.group_name
        (DeploymentGroup.ecsDeploymentGroup (deploymentGroup p)) = apiName props
    ∧ DeploymentGroup.properties
        (DeploymentGroup.customEcsDeploymentGroup (deploymentGroup p))
        !! "TestListenerArn"
      = Some (JsString (listenerArn (albTestListener (service p))))
    ∧ codePipeline p
      = {| pipeline_path := child (child scope id) "ecsBlueGreen";
           pipeline_role := "codePipelineRole";
           artifactBucket := "artifactsBucket";
           stages :=
             [ {| stageName := "Source";
                  actions := [CodeCommitSourceAction "Source" (codeRepoName props)
                                                     "sourceArtifact" "main"] |};
               {| stageName := "Build";
                  actions := [CodeBuildAction "Build" (codeBuildProjectName props)
                                              "sourceArtifact" ["buildArtifact"]] |};
               {| stageName := "Deploy";
                  actions :=
                    [CodeDeployEcsDeployAction "Deploy"
                       (DeploymentGroup.ecsDeploymentGroup (deploymentGroup p))
                       "buildArtifact" "buildArtifact"] |} ];
           dependencies := [DeploymentGroup.node_path (deploymentGroup p)] |}.
Proof.
  unfold EcsBlueGreenPipeline_new. intros H.
  destruct (EcsBlueGreenService_new _ _ _) as [s|] eqn:Hs; [|discriminate].
  cbn [mbind Result_bind] in H.
  destruct (EcsServiceAlarms_new _ _ _) as [al|] eqn:Ha; [|discriminate].
  cbn [mbind Result_bind] in H.
  destruct (Hooks.EcsBlueGreenDeploymentHooks_new _) as [h|] eqn:Hh; [|discriminate].
  cbn [mbind Result_bind] in H.
  injection H as <-. exists h.
  repeat split; try reflexivity; try exact Hh.
Qed.

(** C3 (as amended): the AfterAllowTestTraffic handler of a pipeline is
    given the production listener of the service as its listener input; its
    inputs are the load balancer, the two target groups, that listener and
    the header configuration, and nothing else, so no test listener.  Its
    action, isolateTestTraffic on what it is given, installs the
    header-match rule on the production listener and leaves untagged
    traffic unaffected: every other listener is untouched and every
    request without the tag is routed as before. *)
Theorem test_traffic_handler_gets_prod_listener scope id props p :
  new_pipeline scope id props = Ok p ->
  ∃ f,
    Hooks.handlerFor (deploymentHooks p) AfterAllowTestTraffic = Some f
    ∧ environment (fn_props f) !! "ALB_PROD_LISTENER"
      = Some (listenerArn (albProdListener (service p)))
    ∧ dom (environment (fn_props f))
      = list_to_set ["APP_ALB"; "ALB_TG_X"; "ALB_TG_Y"; "ALB_PROD_LISTENER";
                     "HTTP_HEADER_NAME"; "HTTP_HEADER_VALUE_LIST"]
    ∧ environment (fn_props f) !! "ALB_TG_X"
      = Some (targetGroupArn (blueTargetGroup (service p)))
    ∧ environment (fn_props f) !! "ALB_TG_Y"
      = Some (targetGroupArn (greenTargetGroup (service p)))
    ∧ ∀ slot lb lb' h,
        TestTraffic.afterAllowTestTraffic f slot lb = (lb', inr h) ->
        ListenerRules.handle_listener h
        = listenerArn (albProdListener (service p))
        ∧ (∃ l' r,
             ListenerRules.listeners lb'
               !! listenerArn (albProdListener (service p)) = Some l'
             ∧ r ∈ ListenerRules.rules l'
             ∧ ListenerRules.origin r = ListenerRules.TestIsolation
             ∧ ListenerRules.condition r = TestTraffic.testHeader
             ∧ ListenerRules.handle_priority h = ListenerRules.priority r)
        ∧ (∀ ref, ref ≠ listenerArn (albProdListener (service p)) ->
                  ListenerRules.listeners lb' !! ref
                  = ListenerRules.listeners lb !! ref)
        ∧ (∀ ref l l' req,
             ListenerRules.listeners lb !! ref = Some l ->
             ListenerRules.listeners lb' !! ref = Some l' ->
             TestTraffic.carries TestTraffic.testHeader req = false ->
             TestTraffic.route l' req = TestTraffic.route l req).
Proof.
  intros H. destruct (pipeline_new_inv _ _ _ _ H) as (h & Hh & -> & _).
  cbn in Hh. injection Hh as <-.
  eexists. split; [reflexivity|]. cbn [fn_props environment].
  split; [reflexivity|].
  split; [rewrite !dom_insert_L, dom_empty_L; reflexivity|].
  split; [reflexivity|]. split; [reflexivity|].
  intros slot lb lb' hd Hrun.
  assert (Hiso : ∃ tg,
    ListenerRules.isolateTestTraffic (loadBalancerArn (alb (service p)))
      (listenerArn (albProdListener (service p))) tg TestTraffic.testHeader lb
    = (lb', inr hd)) by (destruct slot; eexists; exact Hrun).
  clear Hrun. destruct Hiso as [tg Hiso].
  destruct (isolate_installs _ _ _ _ _ _ _ Hiso)
    as (Hh & Hother & l & l' & Hl & Hl' & Hd & Hr & r & Hin & Ho & Hc & _ & Hp).
  split; [exact Hh|].
  split; [by exists l', r|].
  split; [exact Hother|].
  intros ref l1 l1' req H1 H1' Hreq.
  destruct (decide (ref = listenerArn (albProdListener (service p)))) as [->|Hne].
  - rewrite Hl in H1. rewrite Hl' in H1'.
    injection H1 as <-. injection H1' as <-.
    by apply (route_untagged _ _ TestTraffic.testHeader).
  - rewrite (Hother _ Hne), H1 in H1'. by injection H1' as <-.
Qed.

(** C10: the Deploy stage of a pipeline targets the deployment group that
    the registrar of the same pipeline instance creates (same application,
    same deployment-group name), the pipeline node depends on that
    deployment-group construct, and so in any creation order that honours
    the dependencies the registrar's custom resource comes before the
    pipeline. *)
Theorem deploy_stage_targets_own_deployment_group scope id props p :
  new_pipeline scope id props = Ok p ->
  let g := deploymentGroup p in
  let registrar := DeploymentGroup.customEcsDeploymentGroup g in
  (∃ s, stageNamed (codePipeline p) "Deploy" = Some s
        ∧ deployTargets s = [DeploymentGroup.ecsDeploymentGroup g])
  ∧ mjoin (deployTargets <$> stages (codePipeline p))
    = [DeploymentGroup.ecsDeploymentGroup g]
  ∧ DeploymentGroup.properties registrar !! "DeploymentGroupName"
    = Some (jsString (DeploymentGroup.group_name
                        (DeploymentGroup.ecsDeploymentGroup g)))
  ∧ DeploymentGroup.properties registrar !! "ApplicationName"
    = Some (JsString (DeploymentGroup.applicationName
                        (DeploymentGroup.application
                           (DeploymentGroup.ecsDeploymentGroup g))))
  ∧ DeploymentGroup.node_path g = child (node_path p) "ecsApplication"
  ∧ dependencies (codePipeline p) = [DeploymentGroup.node_path g]
  ∧ DeploymentGroup.node_path g `prefix_of` DeploymentGroup.registrarPath g
  ∧ ∀ order i j,
      honours order (pipelineDependencies (codePipeline p)) ->
      order !! i = Some (pipeline_path (codePipeline p)) ->
      order !! j = Some (DeploymentGroup.registrarPath g) ->
      (j < i)%nat.
Proof.
  intros H. cbv zeta.
  destruct (pipeline_new_inv _ _ _ _ H)
    as (h & Hh & _ & Hn & Hg & _ & _ & Hp).
  rewrite Hp. cbn [stages dependencies pipeline_path].
  split; [eexists; split; reflexivity|].
  split; [reflexivity|].
  unfold EcsBlueGreenPipeline_new in H.
  destruct (EcsBlueGreenService_new _ _ _) as [s|]; [|discriminate].
  cbn [mbind Result_bind] in H.
  destruct (EcsServiceAlarms_new _ _ _) as [al|]; [|discriminate].
  cbn [mbind Result_bind] in H.
  destruct (Hooks.EcsBlueGreenDeploymentHooks_new _) as [h'|]; [|discriminate].
  cbn [mbind Result_bind] in H. injection H as <-.
  cbn [deploymentGroup node_path].
  split; [reflexivity|]. split; [reflexivity|]. split; [reflexivity|].
  split; [reflexivity|].
  split; [eexists; reflexivity|].
  intros order i j Hhon Hi Hj.
  eapply (Hhon _ _ i j); [|exact Hi|exact Hj].
  eexists _, _. split; [|split].
  - unfold pipelineDependencies. cbn. apply list_elem_of_singleton. reflexivity.
  - reflexivity.
  - eexists. reflexivity.
Qed.

End PipelineFacts.

Section PipelineExamplesFacts.
Import Pipeline.
Import PipelineExamples.

Example pipeline0_built : is_Ok pipeline0 = true.
Proof. reflexivity. Qed.

Example pipeline0_dependency :
  (fun p => dependencies (codePipeline p)) <$> pipeline0
  = Ok [["EcsBlueGreenStack"; "EcsBlueGreenPipeline"; "ecsApplication"]].
Proof. reflexivity. Qed.

End PipelineExamplesFacts.

Section PipelineProperties.
Import Pipeline PipelineExamples.

Lemma test_traffic_handler_gets_prod_listener_witness :
  ∃ p f,
    pipeline0 = Ok p
    ∧ Hooks.handlerFor (deploymentHooks p) AfterAllowTestTraffic = Some f
    ∧ environment (fn_props f) !! "ALB_PROD_LISTENER" = Some "arn:listener-prod".
Proof.
  eexists.
  destruct (test_traffic_handler_gets_prod_listener
              stringify0 newService0 newAlarms0
              ["EcsBlueGreenStack"] "EcsBlueGreenPipeline" pipelineProps0
              _ eq_refl) as (f & Hf & Hl & _).
  exists f. split; [reflexivity|]. split; [exact Hf|exact Hl].
Defined.

(** C3 as stated fails: in the pipeline of the test, no input of the
    AfterAllowTestTraffic handler holds the test listener. *)
Lemma test_traffic_handler_not_given_test_listener :
  ¬ (∀ (A : Type) (stringify : list A -> string) newService newAlarms
       scope id props (p : EcsBlueGreenPipeline A),
       EcsBlueGreenPipeline_new stringify newService newAlarms scope id props
       = Ok p ->
       givenTestListener (service p) (deploymentHooks p)).
Proof.
  intros H.
  specialize (H string stringify0 newService0 newAlarms0
                ["EcsBlueGreenStack"] "EcsBlueGreenPipeline" pipelineProps0
                _ eq_refl).
  destruct H as (f & Hf & k & Hk).
  vm_compute in Hf. injection Hf as <-.
  apply elem_of_map_to_list in Hk. vm_compute in Hk.
  repeat (apply elem_of_cons in Hk as [Hk|Hk]; [discriminate Hk|]).
  by apply elem_of_nil in Hk.
Qed.

(** C4 as stated fails: in the pipeline of the test, the BeforeInstall
    handler has no input holding a target group. *)
Lemma before_install_lacks_target_groups :
  ¬ (∀ (A : Type) (stringify : list A -> string) newService newAlarms
       scope id props (p : EcsBlueGreenPipeline A),
       EcsBlueGreenPipeline_new stringify newService newAlarms scope id props
       = Ok p ->
       ∀ f, f ∈ Hooks.functions (deploymentHooks p) ->
            fullInputSet (service p) f).
Proof.
  intros H.
  specialize (H string stringify0 newService0 newAlarms0
                ["EcsBlueGreenStack"] "EcsBlueGreenPipeline" pipelineProps0
                _ eq_refl).
  destruct (H _ (list_elem_of_here _ _)) as (_ & _ & _ & (k & Hk) & _).
  apply elem_of_map_to_list in Hk. vm_compute in Hk.
  repeat (apply elem_of_cons in Hk as [Hk|Hk]; [discriminate Hk|]).
  by apply elem_of_nil in Hk.
Qed.

Lemma hook_handler_inputs_witness :
  ∃ bi,
    Hooks.EcsBlueGreenDeploymentHooks_new HooksExamples.props0
    = Ok HooksExamples.hooks0
    ∧ Hooks.handlerFor HooksExamples.hooks0 BeforeInstall = Some bi
    ∧ dom (environment (fn_props bi))
      = list_to_set ["APP_ALB"; "ALB_PROD_LISTENER"].
Proof.
  destruct (hook_handler_inputs HooksExamples.props0 HooksExamples.hooks0 eq_refl)
    as (a & x & y & l & bi & tt & bt & _ & _ & Hbi & _ & _ & Henv & _).
  exists bi. split; [reflexivity|]. split; [exact Hbi|].
  rewrite Henv, dom_list_to_map_L. reflexivity.
Defined.

Lemma deploy_stage_targets_own_deployment_group_witness :
  ∃ p,
    pipeline0 = Ok p
    ∧ dependencies (codePipeline p)
      = [DeploymentGroup.node_path (deploymentGroup p)].
Proof.
  eexists. split; [reflexivity|].
  apply (deploy_stage_targets_own_deployment_group
           stringify0 newService0 newAlarms0
           ["EcsBlueGreenStack"] "EcsBlueGreenPipeline" pipelineProps0
           _ eq_refl).
Defined.

End PipelineProperties.

Section TestTrafficExamples.
Import Pipeline PipelineExamples ListenerRules ListenerRulesExamples TestTraffic.

(** On the load balancer of the example the handler's action puts the
    rule on the production listener and leaves the test listener alone; a
    request without the header keeps going where it went. *)
Example after_allow_test_traffic_on_lb0 :
  (fun p =>
     (fun f =>
        let lb' := (afterAllowTestTraffic f SlotY lb0).1 in
        ((length ∘ rules) <$> listeners lb' !! "arn:listener-prod",
         (length ∘ rules) <$> listeners lb' !! "arn:listener-test",
         (fun l => route l ∅) <$> listeners lb' !! "arn:listener-prod",
         (fun l => route l {["counter_no" := "88888"]})
           <$> listeners lb' !! "arn:listener-prod"))
       <$> Hooks.handlerFor (deploymentHooks p) AfterAllowTestTraffic)
    <$> pipeline0
  = Ok (Some (Some 1%nat, Some 0%nat,
              Some [("arn:tg-blue", 100%nat)],
              Some [("arn:tg-green", 100%nat)])).
Proof. vm_compute. reflexivity. Qed.

End TestTrafficExamples.

(** ** The configuration surface *)

Section PipelineStackFacts.
Import PipelineStack.

(** C6: the deployment-config name parameter admits exactly the five
    predefined CodeDeploy ECS policies (ECSLinear10PercentEvery1Minutes,
    ECSLinear10PercentEvery3Minutes, ECSCanary10Percent5Minutes,
    ECSCanary10Percent15Minutes, ECSAllAtOnce, each under its
    'CodeDeployDefault.' name) and defaults to
    ECSLinear10PercentEvery1Minutes. *)
Theorem deployment_config_name_closed_set :
  allowedValues deploymentConfigName = Some (configName <$> policies)
  ∧ length policies = 5%nat
  ∧ NoDup (configName <$> policies)
  ∧ (∀ v, admissible deploymentConfigName v = true
          ↔ ∃ p, v = configName p)
  ∧ default deploymentConfigName
    = Some (configName ECSLinear10PercentEvery1Minutes)
  ∧ valueAsString deploymentConfigName None
    = Some (configName ECSLinear10PercentEvery1Minutes)
  ∧ (∀ v, valueAsString deploymentConfigName (Some v)
          = if bool_decide (v ∈ configName <$> policies) then Some v else None).
Proof.
  split; [reflexivity|]. split; [reflexivity|].
  split; [by apply (bool_decide_unpack _)|].
  split; [|repeat split].
  intros v. unfold admissible. cbn [allowedValues deploymentConfigName].
  rewrite bool_decide_eq_true. split.
  - intros Hv.
    apply elem_of_cons in Hv as [->|Hv]; [by exists ECSLinear10PercentEvery1Minutes|].
    apply elem_of_cons in Hv as [->|Hv]; [by exists ECSLinear10PercentEvery3Minutes|].
    apply elem_of_cons in Hv as [->|Hv]; [by exists ECSCanary10Percent5Minutes|].
    apply elem_of_cons in Hv as [->|Hv]; [by exists ECSCanary10Percent15Minutes|].
    apply elem_of_cons in Hv as [->|Hv]; [by exists ECSAllAtOnce|].
    by apply elem_of_nil in Hv.
  - intros [p ->]. destruct p; by apply (bool_decide_unpack _).
Qed.

Example deployment_config_rejects_other :
  admissible deploymentConfigName "CodeDeployDefault.ECSLinear10PercentEvery5Minutes"
  = false
  ∧ admissible deploymentConfigName "ECSAllAtOnce" = false.
Proof. split; reflexivity. Qed.

End PipelineStackFacts.

(** ** The registrar *)

Section RegistrarFacts.
Import Registrar.

Lemma updateMutable_self g : updateMutable g g = g.
Proof. by destruct g. Qed.

Lemma updateMutable_twice old g :
  updateMutable (updateMutable old g) g = updateMutable old g.
Proof. reflexivity. Qed.

Lemma samePair_refl g : samePair g g = true.
Proof. unfold samePair. by apply bool_decide_eq_true. Qed.

(** A second identical [upsert] returns what the first returned and leaves
    the registry as the first left it. *)
Lemma upsert_upsert g reg :
  upsert g (upsert g reg).1 = upsert g reg.
Proof.
  unfold upsert.
  destruct (bool_decide (deploymentConfigName g ∈ knownConfigs)) eqn:Hc;
    cbn [fst]; rewrite ?Hc; [|reflexivity].
  destruct (reg !! deploymentGroupName g) as [old|] eqn:Hl.
  - destruct (samePair old g) eqn:Hp; cbn [fst].
    + rewrite lookup_insert_eq.
      change (samePair (updateMutable old g) g) with (samePair old g).
      rewrite Hp, updateMutable_twice, insert_insert_eq. reflexivity.
    + rewrite Hl, Hp. reflexivity.
  - cbn [fst]. rewrite lookup_insert_eq, samePair_refl.
    rewrite updateMutable_self, insert_insert_eq. reflexivity.
Qed.

(** C7: an identical upsert performed twice leaves the registry and the
    returned outcome as one upsert does; the registry holds one group under
    the name, and the repeat rewrites that entry in place. *)
Theorem registrar_upsert_idempotent g reg :
  let once := upsert g reg in
  let twice := upsert g once.1 in
  twice = once
  ∧ size twice.1 = size once.1
  ∧ dom twice.1 = dom once.1
  ∧ ∀ h, once.2 = Registered h ->
         ∃ stored,
           once.1 !! deploymentGroupName g = Some stored
           ∧ twice.1 !! deploymentGroupName g = Some stored
           ∧ updateMutable stored g = stored.
Proof.
  cbv zeta. rewrite upsert_upsert.
  split; [reflexivity|]. split; [reflexivity|]. split; [reflexivity|].
  intros h. unfold upsert.
  destruct (bool_decide (deploymentConfigName g ∈ knownConfigs)); [|discriminate].
  destruct (reg !! deploymentGroupName g) as [old|] eqn:Hl.
  - destruct (samePair old g); [|discriminate]. cbn [fst snd]. intros _.
    exists (updateMutable old g). rewrite lookup_insert_eq. by repeat split.
  - cbn [fst snd]. intros _. exists g. rewrite lookup_insert_eq.
    repeat split. apply updateMutable_self.
Qed.

End RegistrarFacts.

Section RegistrarExamplesFacts.
Import Registrar.
Import RegistrarExamples.

Example upsert_creates :
  upsert books ∅
  = ({["books" := books]},
     Registered {| handle_application := "books-app"; handle_group := "books" |}).
Proof. reflexivity. Qed.

Example upsert_twice_one_group :
  size (upsert books (upsert books ∅).1).1 = 1%nat.
Proof. reflexivity. Qed.

Example upsert_unknown_config :
  (upsert {| applicationName := "books-app";
             deploymentGroupName := "books";
             deploymentConfigName := "ECSLinear10PercentEvery1Minute";
             serviceRoleArn := "arn:role/codedeploy";
             blueTargetGroup := "blue";
             greenTargetGroup := "green";
             prodListenerArn := "arn:listener-prod";
             testListenerArn := "arn:listener-test";
             alarms := [];
             ecsClusterName := "cluster-0";
             ecsServiceName := "books-service";
             terminationWaitTimeMinutes := 10;
             deploymentReadyWaitTimeMinutes := 0 |} ∅).2
  = Rejected InvalidConfig.
Proof. reflexivity. Qed.

End RegistrarExamplesFacts.

(** ** The listener rule controller *)

Section ListenerRulesFacts.
Import ListenerRules.

Lemma find_snoc {A} (f : A -> bool) (l : list A) (x : A) :
  List.find f l = None -> f x = true -> List.find f (l ++ [x]) = Some x.
Proof.
  induction l as [|y l IH]; cbn; intros Hn Hx.
  - by rewrite Hx.
  - destruct (f y); [discriminate|]. by apply IH.
Qed.

Lemma find_none_filter {A} (f g : A -> bool) (l : list A) :
  (∀ x, f x = true -> g x = true) ->
  List.filter g l = [] -> List.find f l = None.
Proof.
  intros Hfg. induction l as [|y l IH]; cbn; [done|].
  destruct (g y) eqn:Hg; [discriminate|]. intros Hl.
  destruct (f y) eqn:Hf; [|by apply IH].
  apply Hfg in Hf. congruence.
Qed.

Lemma sameRule_isolation m tg r : sameRule m tg r = true -> isIsolation r = true.
Proof.
  unfold sameRule. intros H.
  apply andb_prop in H as [H _]. by apply andb_prop in H as [H _].
Qed.

Lemma sameRule_new m tg p :
  sameRule m tg {| priority := p; condition := m; target := tg;
                   origin := TestIsolation |} = true.
Proof.
  unfold sameRule, isIsolation. cbn.
  by rewrite !bool_decide_eq_true_2.
Qed.

(** A second identical call changes nothing and returns the same handle. *)
Lemma isolate_isolate a ref tg m lb :
  isolateTestTraffic a ref tg m (isolateTestTraffic a ref tg m lb).1
  = isolateTestTraffic a ref tg m lb.
Proof.
  unfold isolateTestTraffic.
  destruct (negb (bool_decide (a = albArn lb))) eqn:Ha; cbn [fst];
    rewrite ?Ha; [reflexivity|].
  destruct (negb (bool_decide (tg ∈ targetGroups lb))) eqn:Ht; cbn [fst];
    rewrite ?Ha, ?Ht; [reflexivity|].
  destruct (listeners lb !! ref) as [l|] eqn:Hl; cbn [fst];
    rewrite ?Ha, ?Ht, ?Hl; [|reflexivity].
  destruct (List.find (sameRule m tg) (rules l)) as [r|] eqn:Hf; cbn [fst].
  - by rewrite Ha, Ht, Hl, Hf.
  - cbn [setListener albArn targetGroups listeners]. rewrite Ha, Ht.
    rewrite lookup_insert_eq. cbn [rules defaultAction].
    rewrite (find_snoc _ _ _ Hf (sameRule_new _ _ _)).
    reflexivity.
Qed.

(** Any number of identical calls ends where the first call ended, each
    call returning what the first returned. *)
Lemma repeatIsolate_S n a ref tg m lb :
  repeatIsolate (S n) a ref tg m lb
  = ((isolateTestTraffic a ref tg m lb).1,
     replicate (S n) (isolateTestTraffic a ref tg m lb).2).
Proof.
  revert lb. induction n as [|n IH]; intros lb.
  - cbn. by destruct (isolateTestTraffic a ref tg m lb).
  - change (repeatIsolate (S (S n)) a ref tg m lb)
      with (let '(lb1, r) := isolateTestTraffic a ref tg m lb in
            let '(lb2, rs) := repeatIsolate (S n) a ref tg m lb1 in
            (lb2, r :: rs)).
    destruct (isolateTestTraffic a ref tg m lb) as [lb1 r] eqn:H1.
    rewrite IH.
    pose proof (isolate_isolate a ref tg m lb) as Hii.
    rewrite H1 in Hii. cbn [fst] in Hii. rewrite Hii. reflexivity.
Qed.

(** C8: on a listener that holds no test-isolation rule, any number (at
    least one) of identical isolateTestTraffic calls leaves exactly one
    test-isolation rule, the one for the given header match and target, and
    every call returns the handle of that rule. *)
Theorem isolate_test_traffic_idempotent n a ref tg m lb l :
  a = albArn lb ->
  tg ∈ targetGroups lb ->
  listeners lb !! ref = Some l ->
  isolationRules l = [] ->
  ∃ l' r,
    listeners (repeatIsolate (S n) a ref tg m lb).1 !! ref = Some l'
    ∧ isolationRules l' = [r]
    ∧ condition r = m ∧ target r = tg
    ∧ length (isolationRules l') = 1%nat
    ∧ (repeatIsolate (S n) a ref tg m lb).2
      = replicate (S n) (inr {| handle_listener := ref;
                                handle_priority := priority r |})
    ∧ (repeatIsolate (S n) a ref tg m lb).1
      = (repeatIsolate 1 a ref tg m lb).1.
Proof.
  intros Ha Ht Hl Hiso.
  rewrite !repeatIsolate_S. cbn [fst snd].
  unfold isolateTestTraffic.
  rewrite (bool_decide_eq_true_2 _ Ha), (bool_decide_eq_true_2 _ Ht), Hl.
  cbn [negb].
  rewrite (find_none_filter (sameRule m tg) isIsolation (rules l)
             (sameRule_isolation m tg) Hiso).
  cbn [fst snd setListener listeners].
  eexists _, _. rewrite lookup_insert_eq.
  split; [reflexivity|].
  unfold isolationRules in *. cbn [rules]. rewrite List.filter_app, Hiso.
  cbn. repeat split.
Qed.

End ListenerRulesFacts.

Section ListenerRulesExamplesFacts.
Import ListenerRules.
Import ListenerRulesExamples.

Example isolate_three_times_one_rule :
  (length ∘ isolationRules) <$>
    listeners (repeatIsolate 3 "arn:alb" "arn:listener-test" "arn:tg-green"
                 counterHeader lb0).1 !! "arn:listener-test"
  = Some 1%nat.
Proof. vm_compute. reflexivity. Qed.

Example isolate_unknown_listener :
  (isolateTestTraffic "arn:alb" "arn:listener-other" "arn:tg-green"
     counterHeader lb0).2 = inl ResourceNotFound.
Proof. vm_compute. reflexivity. Qed.

Lemma isolate_test_traffic_idempotent_witness :
  ∃ l' r,
    listeners (repeatIsolate 3 "arn:alb" "arn:listener-test" "arn:tg-green"
                 counterHeader lb0).1 !! "arn:listener-test" = Some l'
    ∧ isolationRules l' = [r].
Proof.
  destruct (isolate_test_traffic_idempotent 2 "arn:alb" "arn:listener-test"
              "arn:tg-green" counterHeader lb0
              {| defaultAction := [("arn:tg-blue", 100%nat)]; rules := [] |})
    as (l' & r & Hl & Hr & _).
  - reflexivity.
  - vm_compute. set_solver.
  - reflexivity.
  - reflexivity.
  - exists l', r. split; assumption.
Defined.

End ListenerRulesExamplesFacts.

(** ** Further properties of the hooks constructs *)

Section HooksFailure.
Import Hooks.

(** X1: all four props of the hooks construct are declared optional, but
    the constructor throws unless all four are present; the error names the
    first one missing in the order load balancer, production listener,
    target group X, target group Y.  In particular the default props [{}]
    always throw. *)
Theorem hooks_new_throws_on_first_missing_prop props :
  match firstMissingHookProp props with
  | Some what => EcsBlueGreenDeploymentHooks_new props = Throw (TypeError what)
  | None => is_Ok (EcsBlueGreenDeploymentHooks_new props) = true
  end
  ∧ (is_Ok (EcsBlueGreenDeploymentHooks_new props) = true
     ↔ is_Some (alb props) ∧ is_Some (prodListener props)
       ∧ is_Some (targetGroupX props) ∧ is_Some (targetGroupY props))
  ∧ EcsBlueGreenDeploymentHooks_new
      {| targetGroupX := None; targetGroupY := None;
         alb := None; prodListener := None |}
    = Throw (TypeError "props.alb").
Proof.
  split; [|split; [|reflexivity]].
  - destruct props as [[x|] [y|] [a|] [l|]]; reflexivity.
  - destruct props as [[x|] [y|] [a|] [l|]]; cbn; split; intros H;
      try discriminate; try reflexivity; try (by repeat split; eauto);
      destruct H as (H1 & H2 & H3 & H4);
      first [by apply is_Some_None in H1 | by apply is_Some_None in H2
            | by apply is_Some_None in H3 | by apply is_Some_None in H4].
Qed.

(** X2: the earlier variant of the hooks construct registers two hooks,
    AfterAllowTestTraffic then BeforeAllowTraffic, and gives both handlers
    the same four inputs: load balancer, blue and green target group and
    production listener; it has no BeforeInstall handler and no header
    configuration. *)
Theorem hooksV1_two_handlers_same_inputs props h :
  HooksV1.EcsBlueGreenDeploymentHooks_new props = Ok h ->
  ∃ a b g l,
    props = {| HooksV1.blueTargetGroup := Some b;
               HooksV1.greenTargetGroup := Some g;
               HooksV1.alb := Some a;
               HooksV1.prodListener := Some l |}
    ∧ name <$> HooksV1.deploymentHooks h
      = handlerFunctionName <$> [AfterAllowTestTraffic; BeforeAllowTraffic]
    ∧ functionNameOf <$> HooksV1.functions h
      = handlerFunctionName <$> [AfterAllowTestTraffic; BeforeAllowTraffic]
    ∧ (fun f => handler (fn_props f)) <$> HooksV1.functions h
      = handlerEntryPoint <$> [AfterAllowTestTraffic; BeforeAllowTraffic]
    ∧ ∀ f, f ∈ HooksV1.functions h ->
           environment (fn_props f)
           = list_to_map [("APP_ALB", loadBalancerArn a);
                          ("ALB_BLUE_TG", targetGroupArn b);
                          ("ALB_GREEN_TG", targetGroupArn g);
                          ("ALB_PROD_LISTENER", listenerArn l)].
Proof.
  destruct props as [[b|] [g|] [a|] [l|]]; cbn; intros H; try discriminate.
  injection H as <-. exists a, b, g, l.
  split; [reflexivity|]. split; [reflexivity|]. split; [reflexivity|].
  split; [reflexivity|].
  intros f Hf. cbn in Hf.
  apply elem_of_cons in Hf as [->|Hf];
    [|apply elem_of_cons in Hf as [->|Hf]; [|by apply elem_of_nil in Hf]];
    cbn [fn_props environment HooksV1.hookFunction];
    apply map_eq; intros k; cbn [list_to_map foldr uncurry fst snd];
    rewrite !lookup_insert; repeat case_decide; congruence.
Qed.

Lemma hooksV1_two_handlers_same_inputs_witness :
  ∃ h,
    HooksV1.EcsBlueGreenDeploymentHooks_new
      {| HooksV1.blueTargetGroup := Some HooksExamples.blue0;
         HooksV1.greenTargetGroup := Some HooksExamples.green0;
         HooksV1.alb := Some HooksExamples.alb0;
         HooksV1.prodListener := Some HooksExamples.prod0 |} = Ok h
    ∧ name <$> HooksV1.deploymentHooks h
      = handlerFunctionName <$> [AfterAllowTestTraffic; BeforeAllowTraffic].
Proof.
  eexists. split; [reflexivity|].
  destruct (hooksV1_two_handlers_same_inputs
              {| HooksV1.blueTargetGroup := Some HooksExamples.blue0;
                 HooksV1.greenTargetGroup := Some HooksExamples.green0;
                 HooksV1.alb := Some HooksExamples.alb0;
                 HooksV1.prodListener := Some HooksExamples.prod0 |} _ eq_refl)
    as (a & b & g & l & _ & Hn & _).
  exact Hn.
Defined.

End HooksFailure.
(** ** Further properties of the deployment group and the pipeline *)

Section DefinedFields.

Lemma elem_of_definedFields (ps : gmap string JsValue) k :
  k ∈ definedFields ps ↔ ∃ v, ps !! k = Some v ∧ v ≠ JsUndefined.
Proof.
  unfold definedFields. rewrite elem_of_dom. unfold is_Some.
  split; intros [v Hv]; exists v.
  - by apply map_lookup_filter_Some in Hv.
  - by apply map_lookup_filter_Some.
Qed.

Lemma defined_jsString (ps : gmap string JsValue) k o :
  ps !! k = Some (jsString o) -> k ∈ definedFields ps ↔ is_Some o.
Proof.
  intros H. rewrite elem_of_definedFields, H.
  destruct o as [s|]; cbn; split.
  - eauto.
  - intros _. by exists (JsString s).
  - intros (v & [= <-] & Hv). done.
  - by intros ?%is_Some_None.
Qed.

Lemma defined_jsNumber (ps : gmap string JsValue) k o :
  ps !! k = Some (jsNumber o) -> k ∈ definedFields ps ↔ is_Some o.
Proof.
  intros H. rewrite elem_of_definedFields, H.
  destruct o as [n|]; cbn; split.
  - eauto.
  - intros _. by exists (JsNumber n).
  - intros (v & [= <-] & Hv). done.
  - by intros ?%is_Some_None.
Qed.

Lemma defined_literal (ps : gmap string JsValue) k s :
  ps !! k = Some (JsString s) -> k ∈ definedFields ps.
Proof. intros H. apply elem_of_definedFields. by exists (JsString s). Qed.

End DefinedFields.

Section DeploymentGroupUndefined.
Import DeploymentGroup.

Context {TargetGroupAlarm : Type}.
Variable JSON_stringify : list TargetGroupAlarm -> string.

(** X3: the deployment group constructor never throws; a missing prop
    reaches the registrar as an undefined field.  The application name and
    the service role are always given to the registrar, each of the other
    eleven fields exactly when its prop is; the deployment group the
    construct exposes has no name when the name prop is missing. *)
Theorem deployment_group_missing_props_reach_registrar
    (scope : ConstructPath) (id : string)
    (props : EcsBlueGreenDeploymentGroupProps TargetGroupAlarm) :
  let g := EcsBlueGreenDeploymentGroup_new JSON_stringify scope id props in
  let given := definedFields (properties (customEcsDeploymentGroup g)) in
  "ApplicationName" ∈ given
  ∧ "ServiceRoleArn" ∈ given
  ∧ ("DeploymentGroupName" ∈ given ↔ is_Some (deploymentGroupName props))
  ∧ ("DeploymentConfigName" ∈ given ↔ is_Some (deploymentConfigName props))
  ∧ ("BlueTargetGroup" ∈ given ↔ is_Some (blueTargetGroupName props))
  ∧ ("GreenTargetGroup" ∈ given ↔ is_Some (greenTargetGroupName props))
  ∧ ("ProdListenerArn" ∈ given ↔ is_Some (prodListenerArn props))
  ∧ ("TestListenerArn" ∈ given ↔ is_Some (testListenerArn props))
  ∧ ("TargetGroupAlarms" ∈ given ↔ is_Some (targetGroupAlarms props))
  ∧ ("EcsClusterName" ∈ given ↔ is_Some (ecsClusterName props))
  ∧ ("EcsServiceName" ∈ given ↔ is_Some (ecsServiceName props))
  ∧ ("TerminationWaitTime" ∈ given ↔ is_Some (terminationWaitTime props))
  ∧ ("DeploymentReadyWaitTime" ∈ given ↔ is_Some (deploymentReadyWaitTime props))
  ∧ (group_name (ecsDeploymentGroup g) = None
     ↔ "DeploymentGroupName" ∉ given)
  ∧ (config_name (deploymentConfig (ecsDeploymentGroup g)) = None
     ↔ "DeploymentConfigName" ∉ given).
Proof.
  cbv zeta.
  split; [by eapply defined_literal|].
  split; [by eapply defined_literal|].
  split; [by apply defined_jsString|].
  split; [by apply defined_jsString|].
  split; [by apply defined_jsString|].
  split; [by apply defined_jsString|].
  split; [by apply defined_jsString|].
  split; [by apply defined_jsString|].
  split.
  { rewrite elem_of_definedFields.
    change (properties _ !! "TargetGroupAlarms")
      with (Some (stringifyAlarms JSON_stringify (targetGroupAlarms props))).
    destruct (targetGroupAlarms props) as [al|]; cbn; split.
    - eauto.
    - intros _. by eexists.
    - intros (v & [= <-] & Hv). done.
    - by intros ?%is_Some_None. }
  split; [by apply defined_jsString|].
  split; [by apply defined_jsString|].
  split; [by apply defined_jsNumber|].
  split; [by apply defined_jsNumber|].
  split.
  - rewrite (defined_jsString _ _ (deploymentGroupName props)) by done.
    cbn. rewrite eq_None_not_Some. done.
  - rewrite (defined_jsString _ _ (deploymentConfigName props)) by done.
    cbn. rewrite eq_None_not_Some. done.
Qed.

End DeploymentGroupUndefined.
Section PipelineWiring.
Import Pipeline.

Context {TargetGroupAlarm : Type}.
Variable JSON_stringify : list TargetGroupAlarm -> string.
Variable EcsBlueGreenService_new :
  ConstructPath -> string -> EcsBlueGreenServiceProps -> Result EcsBlueGreenService.
Variable EcsServiceAlarms_new :
  ConstructPath -> string -> EcsServiceAlarmsProps -> Result (list TargetGroupAlarm).

Local Abbreviation build_pipeline :=
  (EcsBlueGreenPipeline_new JSON_stringify EcsBlueGreenService_new
                            EcsServiceAlarms_new).

(** The parts of a pipeline that was built, as the constructor made them. *)
Lemma pipeline_new_parts scope id props p :
  build_pipeline scope id props = Ok p ->
  EcsBlueGreenService_new (child scope id) "service"
    {| svc_containerPort := containerPort props;
       svc_apiName := apiName props;
       svc_ecrRepository := ecrRepoName props;
       svc_ecsTaskRole := ecsTaskRoleArn props;
       svc_vpc := vpc props;
       svc_cluster := cluster props |} = Ok (service p)
  ∧ EcsServiceAlarms_new (child scope id) "alarms"
      {| alarms_alb := alb (service p);
         alarms_blueTargetGroup := blueTargetGroup (service p);
         alarms_greenTargetGroup := greenTargetGroup (service p);
         alarms_apiName := apiName props |} = Ok (serviceAlarms p)
  ∧ deploymentGroup p
    = DeploymentGroup.EcsBlueGreenDeploymentGroup_new JSON_stringify
        (child scope id) "ecsApplication"
        {| DeploymentGroup.ecsClusterName := clusterName <$> cluster props;
           DeploymentGroup.ecsServiceName :=
             Some (serviceName (ecsService (service p)));
           DeploymentGroup.prodListenerArn :=
             Some (listenerArn (albProdListener (service p)));
           DeploymentGroup.testListenerArn :=
             Some (listenerArn (albTestListener (service p)));
           DeploymentGroup.blueTargetGroupName :=
             Some (targetGroupName (blueTargetGroup (service p)));
           DeploymentGroup.greenTargetGroupName :=
             Some (targetGroupName (greenTargetGroup (service p)));
           DeploymentGroup.terminationWaitTime :=
             taskSetTerminationTimeInMinutes props;
           DeploymentGroup.deploymentReadyWaitTime :=
             deploymentReadyWaitTimeinMinutes props;
           DeploymentGroup.deploymentConfigName := deploymentConfigName props;
           DeploymentGroup.deploymentGroupName := apiName props;
           DeploymentGroup.targetGroupAlarms := Some (serviceAlarms p) |}
  ∧ Hooks.EcsBlueGreenDeploymentHooks_new
      {| Hooks.alb := Some (alb (service p));
         Hooks.targetGroupX := Some (blueTargetGroup (service p));
         Hooks.targetGroupY := Some (greenTargetGroup (service p));
         Hooks.prodListener := Some (albProdListener (service p)) |}
    = Ok (deploymentHooks p).
Proof.
  unfold EcsBlueGreenPipeline_new. intros H.
  destruct (EcsBlueGreenService_new _ _ _) as [s|] eqn:Hs; [|discriminate].
  cbn [mbind Result_bind] in H.
  destruct (EcsServiceAlarms_new _ _ _) as [al|] eqn:Ha; [|discriminate].
  cbn [mbind Result_bind] in H.
  destruct (Hooks.EcsBlueGreenDeploymentHooks_new _) as [h|] eqn:Hh; [|discriminate].
  cbn [mbind Result_bind] in H.
  injection H as <-. cbn [service serviceAlarms deploymentGroup deploymentHooks].
  by repeat split.
Qed.

(** X4: in a pipeline the registrar and the hook handlers are wired to the
    same resources of the one service: the registrar gets the names of the
    blue and green target groups whose ARNs the AfterAllowTestTraffic
    handler gets as X and Y, the production listener every handler gets, the
    test listener (which no handler gets), the service name, and the alarms
    built for that load balancer and those two target groups. *)
Theorem pipeline_registrar_and_hooks_share_resources scope id props p :
  build_pipeline scope id props = Ok p ->
  let ps := DeploymentGroup.properties
              (DeploymentGroup.customEcsDeploymentGroup (deploymentGroup p)) in
  let s := service p in
  ps !! "ProdListenerArn" = Some (JsString (listenerArn (albProdListener s)))
  ∧ ps !! "TestListenerArn" = Some (JsString (listenerArn (albTestListener s)))
  ∧ ps !! "BlueTargetGroup" = Some (JsString (targetGroupName (blueTargetGroup s)))
  ∧ ps !! "GreenTargetGroup" = Some (JsString (targetGroupName (greenTargetGroup s)))
  ∧ ps !! "EcsServiceName" = Some (JsString (serviceName (ecsService s)))
  ∧ ps !! "TargetGroupAlarms" = Some (JsString (JSON_stringify (serviceAlarms p)))
  ∧ EcsServiceAlarms_new (child scope id) "alarms"
      {| alarms_alb := alb s;
         alarms_blueTargetGroup := blueTargetGroup s;
         alarms_greenTargetGroup := greenTargetGroup s;
         alarms_apiName := apiName props |} = Ok (serviceAlarms p)
  ∧ (∀ f, f ∈ Hooks.functions (deploymentHooks p) ->
          environment (fn_props f) !! "ALB_PROD_LISTENER"
          = Some (listenerArn (albProdListener s))
          ∧ environment (fn_props f) !! "APP_ALB"
            = Some (loadBalancerArn (alb s))
          ∧ ∀ k, k ∉ ["APP_ALB"; "ALB_TG_X"; "ALB_TG_Y"; "ALB_PROD_LISTENER";
                      "HTTP_HEADER_NAME"; "HTTP_HEADER_VALUE_LIST"] ->
                 environment (fn_props f) !! k = None)
  ∧ ∃ f, Hooks.handlerFor (deploymentHooks p) AfterAllowTestTraffic = Some f
         ∧ environment (fn_props f) !! "ALB_TG_X"
           = Some (targetGroupArn (blueTargetGroup s))
         ∧ environment (fn_props f) !! "ALB_TG_Y"
           = Some (targetGroupArn (greenTargetGroup s)).
Proof.
  intros H. cbv zeta.
  destruct (pipeline_new_parts _ _ _ _ H) as (_ & Ha & -> & Hh).
  do 6 (split; [reflexivity|]). split; [exact Ha|].
  cbn in Hh. injection Hh as <-. cbn [Hooks.functions].
  split.
  - intros f Hf.
    assert (Hnone : ∀ (m : gmap string string) k,
              k ∉ ["APP_ALB"; "ALB_TG_X"; "ALB_TG_Y"; "ALB_PROD_LISTENER";
                   "HTTP_HEADER_NAME"; "HTTP_HEADER_VALUE_LIST"] ->
              dom m ⊆ list_to_set ["APP_ALB"; "ALB_TG_X"; "ALB_TG_Y";
                                   "ALB_PROD_LISTENER"; "HTTP_HEADER_NAME";
                                   "HTTP_HEADER_VALUE_LIST"] ->
              m !! k = None).
    { intros m k Hk Hm. apply not_elem_of_dom. intros Hin.
      apply Hm in Hin. apply Hk. by apply elem_of_list_to_set in Hin. }
    repeat (apply elem_of_cons in Hf as [->|Hf]);
      [..|by apply elem_of_nil in Hf];
      (split; [reflexivity|]; split; [reflexivity|]);
      intros k Hk; apply (Hnone _ _ Hk); cbn [fn_props environment];
      rewrite !dom_insert_L, dom_empty_L; apply (bool_decide_unpack _); vm_compute; reflexivity.
  - eexists. split; [reflexivity|]. split; reflexivity.
Qed.

(** X5: the pipeline forwards its props to the registrar unchanged and
    unchecked: the group is named after the API, the deployment-config name
    is whatever string the caller gave, and the wait times and the cluster
    name are the caller's; the Deploy stage's deployment group carries the
    same name and deployment config. *)
Theorem pipeline_forwards_props_to_registrar scope id props p :
  build_pipeline scope id props = Ok p ->
  let g := deploymentGroup p in
  let ps := DeploymentGroup.properties (DeploymentGroup.customEcsDeploymentGroup g) in
  ps !! "DeploymentGroupName" = Some (jsString (apiName props))
  ∧ ps !! "DeploymentConfigName" = Some (jsString (deploymentConfigName props))
  ∧ ps !! "EcsClusterName" = Some (jsString (clusterName <$> cluster props))
  ∧ ps !! "TerminationWaitTime"
    = Some (jsNumber (taskSetTerminationTimeInMinutes props))
  ∧ ps !! "DeploymentReadyWaitTime"
    = Some (jsNumber (deploymentReadyWaitTimeinMinutes props))
  ∧ DeploymentGroup.group_name (DeploymentGroup.ecsDeploymentGroup g)
    = apiName props
  ∧ DeploymentGroup.config_name
      (DeploymentGroup.deploymentConfig (DeploymentGroup.ecsDeploymentGroup g))
    = deploymentConfigName props
  ∧ ("DeploymentGroupName" ∈ definedFields ps ↔ is_Some (apiName props))
  ∧ ("DeploymentConfigName" ∈ definedFields ps
     ↔ is_Some (deploymentConfigName props)).
Proof.
  intros H. cbv zeta.
  destruct (pipeline_new_parts _ _ _ _ H) as (_ & _ & -> & _).
  do 7 (split; [reflexivity|]).
  split; by apply defined_jsString.
Qed.

(** X6: the stages of every pipeline are Source, Build and Deploy in that
    order, and every artifact a stage reads is produced by an earlier stage:
    the source action produces what the build action reads, and the build
    action produces the appspec and task-definition inputs of the deploy
    action.  The source is the branch 'main' of the repository named in the
    props. *)
Theorem pipeline_stages_chain_artifacts scope id props p :
  build_pipeline scope id props = Ok p ->
  stageName <$> stages (codePipeline p) = ["Source"; "Build"; "Deploy"]
  ∧ artifactsChained [] (stages (codePipeline p)) = true
  ∧ (∀ s, s ∈ stages (codePipeline p) -> length (actions s) = 1%nat)
  ∧ (∃ s out, stageNamed (codePipeline p) "Source" = Some s
              ∧ actions s = [CodeCommitSourceAction "Source" (codeRepoName props)
                                                    out "main"])
  ∧ mjoin (actionInputs <$> mjoin (actions <$> stages (codePipeline p)))
    ⊆ mjoin (actionOutputs <$> mjoin (actions <$> stages (codePipeline p))).
Proof.
  intros H.
  destruct (pipeline_new_inv _ _ _ _ _ _ _ H) as (h & _ & _ & _ & _ & _ & _ & Hp).
  rewrite Hp. cbn [stages].
  split; [reflexivity|]. split; [reflexivity|].
  split.
  - intros s Hs.
    repeat (apply elem_of_cons in Hs as [->|Hs]; [reflexivity|]).
    by apply elem_of_nil in Hs.
  - split; [by eexists _, _|].
    cbn. apply (bool_decide_unpack _); vm_compute; reflexivity.
Qed.

End PipelineWiring.

Section PipelineWiringExamples.
Import Pipeline PipelineExamples.

Lemma pipeline_registrar_and_hooks_share_resources_witness :
  ∃ p,
    pipeline0 = Ok p
    ∧ DeploymentGroup.properties
        (DeploymentGroup.customEcsDeploymentGroup (deploymentGroup p))
        !! "ProdListenerArn" = Some (JsString "arn:listener-prod").
Proof.
  eexists. split; [reflexivity|].
  apply (pipeline_registrar_and_hooks_share_resources
           stringify0 newService0 newAlarms0
           ["EcsBlueGreenStack"] "EcsBlueGreenPipeline" pipelineProps0
           _ eq_refl).
Defined.

Lemma pipeline_forwards_props_to_registrar_witness :
  ∃ p,
    pipeline0 = Ok p
    ∧ DeploymentGroup.properties
        (DeploymentGroup.customEcsDeploymentGroup (deploymentGroup p))
        !! "DeploymentGroupName" = Some (JsString "books").
Proof.
  eexists. split; [reflexivity|].
  apply (pipeline_forwards_props_to_registrar
           stringify0 newService0 newAlarms0
           ["EcsBlueGreenStack"] "EcsBlueGreenPipeline" pipelineProps0
           _ eq_refl).
Defined.

Lemma pipeline_stages_chain_artifacts_witness :
  ∃ p,
    pipeline0 = Ok p
    ∧ stageName <$> stages (codePipeline p) = ["Source"; "Build"; "Deploy"].
Proof.
  eexists. split; [reflexivity|].
  apply (pipeline_stages_chain_artifacts
           stringify0 newService0 newAlarms0
           ["EcsBlueGreenStack"] "EcsBlueGreenPipeline" pipelineProps0
           _ eq_refl).
Defined.

End PipelineWiringExamples.
(** ** Properties of the stacks and of the synth script *)

Section StackFacts.
Import Pipeline PipelineStack BlueGreenPipelineStack.

Lemma admissible_config v :
  admissible PipelineStack.deploymentConfigName v = true ->
  ∃ policy, v = configName policy.
Proof.
  unfold admissible. cbn [allowedValues PipelineStack.deploymentConfigName].
  rewrite bool_decide_eq_true. intros Hv.
  apply elem_of_cons in Hv as [->|Hv]; [by exists ECSLinear10PercentEvery1Minutes|].
  apply elem_of_cons in Hv as [->|Hv]; [by exists ECSLinear10PercentEvery3Minutes|].
  apply elem_of_cons in Hv as [->|Hv]; [by exists ECSCanary10Percent5Minutes|].
  apply elem_of_cons in Hv as [->|Hv]; [by exists ECSCanary10Percent15Minutes|].
  apply elem_of_cons in Hv as [->|Hv]; [by exists ECSAllAtOnce|].
  by apply elem_of_nil in Hv.
Qed.

Context {TargetGroupAlarm : Type}.
Variable JSON_stringify : list TargetGroupAlarm -> string.
Variable EcsBlueGreenService_new :
  ConstructPath -> string -> EcsBlueGreenServiceProps -> Result EcsBlueGreenService.
Variable EcsServiceAlarms_new :
  ConstructPath -> string -> EcsServiceAlarmsProps -> Result (list TargetGroupAlarm).
Variable EcsBlueGreenCluster_new :
  ConstructPath -> string -> EcsBlueGreenClusterProps -> Result EcsBlueGreenCluster.
Variable Number : option string -> option Z.
Variable numberOf : string -> option Z.

Local Abbreviation build_stack :=
  (BlueGreenPipelineStack_new JSON_stringify EcsBlueGreenService_new
     EcsServiceAlarms_new EcsBlueGreenCluster_new Number numberOf).

(** X7: whatever the environment and the parameter values, a pipeline
    stack that deploys invokes the registrar with one of the five
    predefined deployment-config names (the linear one-minute policy when
    none is supplied, the supplied one otherwise), with both wait times as
    numbers, with the cluster name of the stack's own cluster, and with the
    deployment-group name taken from the environment variable API_NAME,
    which is undefined when the variable is not set. *)
Theorem stack_registers_one_of_the_five_configs env supplied scope id p :
  build_stack env supplied scope id = Built p ->
  let g := deploymentGroup p in
  let ps := DeploymentGroup.properties (DeploymentGroup.customEcsDeploymentGroup g) in
  (∃ policy,
     ps !! "DeploymentConfigName" = Some (JsString (configName policy))
     ∧ DeploymentGroup.config_name
         (DeploymentGroup.deploymentConfig (DeploymentGroup.ecsDeploymentGroup g))
       = Some (configName policy)
     ∧ (supplied !! "deploymentConfigName" = None ->
        policy = ECSLinear10PercentEvery1Minutes)
     ∧ (∀ v, supplied !! "deploymentConfigName" = Some v -> v = configName policy))
  ∧ (∃ termination ready,
       ps !! "TerminationWaitTime" = Some (JsNumber termination)
       ∧ ps !! "DeploymentReadyWaitTime" = Some (JsNumber ready)
       ∧ (supplied !! "taskSetTerminationTimeInMinutes" = None ->
          numberOf "10" = Some termination)
       ∧ (supplied !! "deploymentReadyWaitTimeinMinutes" = None ->
          numberOf "0" = Some ready))
  ∧ (∃ c, EcsBlueGreenCluster_new (child scope id) "EcsBlueGreenCluster"
            {| cidr := env !! "CIDR_RANGE" |} = Ok c
          ∧ ps !! "EcsClusterName"
            = Some (JsString (clusterName (BlueGreenPipelineStack.cluster c))))
  ∧ ps !! "DeploymentGroupName" = Some (jsString (env !! "API_NAME"))
  ∧ DeploymentGroup.group_name (DeploymentGroup.ecsDeploymentGroup g)
    = env !! "API_NAME"
  ∧ node_path p = child (child scope id) "EcsBlueGreenPipeline".
Proof.
  unfold BlueGreenPipelineStack_new. intros H. cbv zeta.
  destruct (valueAsString _ _) as [config|] eqn:Hconfig; [|discriminate].
  destruct (valueAsNumber _ _ (supplied !! "taskSetTerminationTimeInMinutes"))
    as [termination|] eqn:Hterm; [|discriminate].
  destruct (valueAsNumber _ _ (supplied !! "deploymentReadyWaitTimeinMinutes"))
    as [ready|] eqn:Hready; [|discriminate].
  destruct (EcsBlueGreenCluster_new _ _ _) as [c|] eqn:Hc; [|discriminate].
  destruct (EcsBlueGreenPipeline_new _ _ _ _ _ _) as [p'|] eqn:Hp; [|discriminate].
  injection H as ->.
  destruct (pipeline_new_parts _ _ _ _ _ _ _ Hp) as (_ & _ & Hg & _).
  destruct (pipeline_new_inv _ _ _ _ _ _ _ Hp) as (_ & _ & _ & Hn & _).
  rewrite Hg. clear Hg Hp.
  split; [|split; [|split; [|split; [|split]]]].
  - assert (Hpol : ∃ policy, config = configName policy
                     ∧ (supplied !! "deploymentConfigName" = None ->
                        policy = ECSLinear10PercentEvery1Minutes)
                     ∧ (∀ v, supplied !! "deploymentConfigName" = Some v ->
                             v = configName policy)).
    { unfold valueAsString in Hconfig.
      destruct (supplied !! "deploymentConfigName") as [v|].
      - destruct (admissible _ v) eqn:Hadm; [|discriminate].
        injection Hconfig as <-.
        destruct (admissible_config _ Hadm) as [policy ->].
        exists policy. split; [done|]. split; [done|]. by intros ? [= <-].
      - injection Hconfig as <-. exists ECSLinear10PercentEvery1Minutes.
        by repeat split. }
    destruct Hpol as (policy & -> & Hdef & Hsup).
    exists policy. by repeat split.
  - exists termination, ready.
    split; [reflexivity|]. split; [reflexivity|].
    split; intros Hs.
    + unfold valueAsNumber in Hterm. rewrite Hs in Hterm. exact Hterm.
    + unfold valueAsNumber in Hready. rewrite Hs in Hready. exact Hready.
  - exists c. by split.
  - reflexivity.
  - reflexivity.
  - exact Hn.
Qed.

End StackFacts.

Section StackExamples.
Import Pipeline PipelineExamples BlueGreenPipelineStack StackExamples0.

Lemma stack_registers_one_of_the_five_configs_witness :
  ∃ p,
    BlueGreenPipelineStack_new stringify0 newService0 newAlarms0
      newCluster0 number0 numberOf0
      stackEnv0 ∅ ["app"] "BlueGreenPipelineStack" = Built p
    ∧ DeploymentGroup.properties
        (DeploymentGroup.customEcsDeploymentGroup (deploymentGroup p))
        !! "DeploymentGroupName" = Some (JsString "books").
Proof.
  edestruct (stack_registers_one_of_the_five_configs
           stringify0 newService0 newAlarms0
           newCluster0 number0 numberOf0
           stackEnv0 ∅ ["app"] "BlueGreenPipelineStack")
    as (_ & _ & _ & Hname & _).
  - reflexivity.
  - eexists. split; [reflexivity|]. exact Hname.
Defined.

(** A parameter value outside the allowed values stops the deployment. *)
Example stack_rejects_unknown_config :
  BlueGreenPipelineStack_new stringify0 newService0 newAlarms0
    newCluster0 number0 numberOf0
    stackEnv0 {["deploymentConfigName" := "ECSAllAtOnce"]}
    ["app"] "BlueGreenPipelineStack"
  = ParameterRejected "deploymentConfigName".
Proof. reflexivity. Qed.

End StackExamples.

Section ShellFacts.
Import SynthContainerImageScript.


End ShellFacts.

Section SynthScript.
Import Roles ContainerImageStack SynthContainerImageScript.


(** With GREEN exported by the caller, the stack sees the script's value
    of it; a variable the script does not name passes through. *)
Example script_overwrites_exported_green :
  (fun env => (env !! "GREEN", env !! "YELLOW", env !! "HOME", env !! "CODE_REPO_NAME"))
    <$> synthEnv (script (<["GREEN" := "yes"]> (<["HOME" := "/root"]>
                            (<["CODE_REPO_NAME" := "mine"]> ∅)))
                         "123456789012" "eu-west-1")
  = Some (Some "\033[1;32m", None, Some "/root", Some "app-demo").
Proof. vm_compute. reflexivity. Qed.

End SynthScript.

Section ContainerImage.
Import Roles ContainerImageStack SynthContainerImageScript.

Context {EcsBlueGreenBuildImage : Type}.
Variable EcsBlueGreenBuildImage_new :
  ConstructPath -> string -> EcsBlueGreenBuildImageProps ->
  Result EcsBlueGreenBuildImage.

(** X9: a container image stack that was built gave the build image the
    two roles of its own roles construct, unswapped: as build role the one
    CodeBuild assumes, whose only permissions are one Allow statement, and
    as task role the one ECS tasks assume, whose only permission is the
    managed task-execution policy.  The repository name is the environment
    variable CODE_REPO_NAME, undefined when that is not set, and no Docker
    Hub credentials are passed. *)
Theorem container_image_stack_wires_roles env scope id st :
  BlueGreenContainerImageStack_new EcsBlueGreenBuildImage_new env scope id
  = Ok st ->
  ∃ props build task,
    EcsBlueGreenBuildImage_new (child scope id) "EcsBlueGreenBuildImage" props
    = Ok (buildImage st)
    ∧ codeBuildRole props = Some build
    ∧ ecsTaskRole props = Some task
    ∧ build = Roles.codeBuildRole (roles st)
    ∧ task = Roles.ecsTaskRole (roles st)
    ∧ assumedBy build = "codebuild.amazonaws.com"
    ∧ managedPolicies build = []
    ∧ (effect <$> statements build) = [ALLOW]
    ∧ assumedBy task = "ecs-tasks.amazonaws.com"
    ∧ managedPolicies task = ["service-role/AmazonECSTaskExecutionRolePolicy"]
    ∧ statements task = []
    ∧ role_path build ≠ role_path task
    ∧ codeRepoName props = env !! "CODE_REPO_NAME"
    ∧ dockerHubUsername props = None
    ∧ dockerHubPassword props = None.
Proof.
  unfold BlueGreenContainerImageStack_new. intros H.
  destruct (EcsBlueGreenBuildImage_new _ _ _) as [image|] eqn:Hi; [|discriminate].
  cbn [mbind Result_bind] in H. injection H as <-.
  eexists _, _, _. split; [exact Hi|].
  cbn. repeat split.
  unfold child. intros Heq. apply app_inv_head in Heq. discriminate.
Qed.

End ContainerImage.

Section ContainerImageExamples.
Import Roles ContainerImageStack.

Lemma container_image_stack_wires_roles_witness :
  ∃ st props,
    BlueGreenContainerImageStack_new (fun _ _ props => Ok props)
      {["CODE_REPO_NAME" := "app-demo"]} ["app"] "BlueGreenContainerImageStack"
    = Ok st
    ∧ buildImage st = props
    ∧ codeRepoName props = Some "app-demo".
Proof.
  eexists _, _. split; [reflexivity|]. split; [reflexivity|].
  destruct (container_image_stack_wires_roles (fun _ _ props => Ok props)
              {["CODE_REPO_NAME" := "app-demo"]} ["app"]
              "BlueGreenContainerImageStack" _ eq_refl)
    as (props & build & task & Hb & _).
  reflexivity.
Defined.

End ContainerImageExamples.

(** ** The cutover sequence *)

Section CutoverFacts.
Import ListenerRules Cutover.

Lemma setListener_same lb ref l :
  listeners lb !! ref = Some l -> setListener lb ref l = lb.
Proof.
  intros H. destruct lb as [a ls tgs]. unfold setListener. cbn in *.
  by rewrite (insert_id _ _ _ H).
Qed.

Lemma setListener_dom lb ref l :
  is_Some (listeners lb !! ref) ->
  dom (listeners (setListener lb ref l)) = dom (listeners lb).
Proof.
  intros H. cbn. rewrite dom_insert_L.
  apply elem_of_dom in H. apply subseteq_union_1_L.
  by apply singleton_subseteq_l.
Qed.

(** What a successful call of each operation does to the load balancer. *)
Lemma clearRules_ok a ref lb lb' u :
  clearRules a ref lb = (lb', inr u) ->
  ∃ l, listeners lb !! ref = Some l
       ∧ lb' = setListener lb ref
                 {| defaultAction := defaultAction l;
                    rules := List.filter (fun r => negb (isIsolation r)) (rules l) |}.
Proof.
  unfold clearRules.
  destruct (negb _); [discriminate|].
  destruct (listeners lb !! ref) as [l|]; [|discriminate].
  intros [= <- _]. by exists l.
Qed.

Lemma isolate_ok a ref tg m lb lb' h :
  isolateTestTraffic a ref tg m lb = (lb', inr h) ->
  ∃ l rs, listeners lb !! ref = Some l
          ∧ lb' = setListener lb ref
                    {| defaultAction := defaultAction l; rules := rs |}.
Proof.
  unfold isolateTestTraffic.
  destruct (negb _); [discriminate|].
  destruct (negb _); [discriminate|].
  destruct (listeners lb !! ref) as [l|] eqn:Hl; [|discriminate].
  destruct (List.find _ _).
  - intros [= <- _]. exists l, (rules l). split; [done|].
    symmetry. destruct l. by apply setListener_same.
  - intros [= <- _]. by eexists l, _.
Qed.

Lemma setDefaultAction_ok a ref f lb lb' u :
  setDefaultAction a ref f lb = (lb', inr u) ->
  ∃ l, listeners lb !! ref = Some l
       ∧ lb' = setListener lb ref {| defaultAction := f; rules := rules l |}.
Proof.
  unfold setDefaultAction.
  destruct (negb _); [discriminate|].
  destruct (negb _); [discriminate|].
  destruct (listeners lb !! ref) as [l|]; [|discriminate].
  intros [= <- _]. by exists l.
Qed.

Lemma activeSlot_setListener lb ref l ref' :
  activeSlot (setListener lb ref l) ref'
  = if decide (ref = ref') then soleTarget (defaultAction l)
    else activeSlot lb ref'.
Proof.
  unfold activeSlot. cbn. rewrite lookup_insert.
  by destruct (decide (ref = ref')).
Qed.

Lemma isolationFree_setListener lb ref l ref' :
  isolationFree (setListener lb ref l) ref'
  ↔ if decide (ref = ref') then isolationRules l = []
    else isolationFree lb ref'.
Proof.
  unfold isolationFree. cbn. rewrite lookup_insert.
  destruct (decide (ref = ref')); [|done].
  split; [by intros H; apply H|by intros H ? [= <-]].
Qed.

Lemma isolationRules_cleared rs :
  List.filter isIsolation (List.filter (fun r => negb (isIsolation r)) rs) = [].
Proof.
  induction rs as [|r rs IH]; cbn; [done|].
  destruct (isIsolation r) eqn:Hr; cbn; [done|]. by rewrite Hr.
Qed.

Lemma step_static d e :
  prodListenerRef (step d e) = prodListenerRef d
  ∧ testListenerRef (step d e) = testListenerRef d
  ∧ original (step d e) = original d
  ∧ replacement (step d e) = replacement d.
Proof.
  unfold step, abort.
  repeat (match goal with
          | |- context [match ?x with _ => _ end] => destruct x
          end; try done).
Qed.

Lemma run_static d es :
  prodListenerRef (run d es) = prodListenerRef d
  ∧ testListenerRef (run d es) = testListenerRef d
  ∧ original (run d es) = original d
  ∧ replacement (run d es) = replacement d.
Proof.
  unfold run. revert d. induction es as [|e es IH]; intros d; cbn; [done|].
  destruct (IH (step d e)) as (H1 & H2 & H3 & H4).
  destruct (step_static d e) as (G1 & G2 & G3 & G4).
  repeat split; congruence.
Qed.

(** What a successful abort leaves behind. *)
Lemma abort_ok d :
  prodListenerRef d ≠ testListenerRef d ->
  dom (listeners (lb d)) = {[prodListenerRef d; testListenerRef d]} ->
  dom (listeners (lb (abort d))) = {[prodListenerRef d; testListenerRef d]}
  ∧ (phase (abort d) = Failed AlarmTriggered ->
     activeSlot (lb (abort d)) (prodListenerRef d) = Some (original d)
     ∧ isolationFree (lb (abort d)) (prodListenerRef d)
     ∧ isolationFree (lb (abort d)) (testListenerRef d))
  ∧ (phase (abort d) = Failed AlarmTriggered
     ∨ phase (abort d) = Failed RollbackFailed).
Proof.
  intros Hne Hdom. unfold abort.
  destruct (promote _ _ _ _) as [lb1 [err|u]] eqn:H1.
  { unfold promote, setDefaultAction in H1.
    repeat (match type of H1 with
            | context [match ?x with _ => _ end] => destruct x
            end; try discriminate);
      injection H1 as <- _; cbn;
      (split; [exact Hdom|]; split; [discriminate|by right]). }
  unfold promote in H1. apply setDefaultAction_ok in H1 as (l & Hl & ->).
  assert (Hd1 : dom (listeners (setListener (lb d) (prodListenerRef d)
                        {| defaultAction := [(original d, 100%nat)];
                           rules := rules l |}))
                = {[prodListenerRef d; testListenerRef d]})
    by (rewrite setListener_dom by eauto; exact Hdom).
  destruct (clearRules _ (prodListenerRef d) _) as [lb2 [err|u2]] eqn:H2.
  { unfold clearRules in H2.
    repeat (match type of H2 with
            | context [match ?x with _ => _ end] => destruct x
            end; try discriminate);
      injection H2 as <- _; cbn -[setListener];
      (split; [exact Hd1|]; split; [discriminate|by right]). }
  apply clearRules_ok in H2 as (l1 & Hl1 & ->).
  cbn [setListener listeners] in Hl1. rewrite lookup_insert_eq in Hl1.
  injection Hl1 as <-. cbn [defaultAction rules].
  set (lb2 := setListener _ (prodListenerRef d)
                {| defaultAction := [(original d, 100%nat)];
                   rules := List.filter (fun r => negb (isIsolation r)) (rules l) |}).
  assert (Hd2 : dom (listeners lb2) = {[prodListenerRef d; testListenerRef d]}).
  { unfold lb2. rewrite setListener_dom; [exact Hd1|].
    cbn. rewrite lookup_insert_eq. eauto. }
  assert (Ha2 : activeSlot lb2 (prodListenerRef d) = Some (original d)).
  { unfold lb2. rewrite activeSlot_setListener, decide_True by done. done. }
  assert (Hf2 : isolationFree lb2 (prodListenerRef d)).
  { unfold lb2. apply isolationFree_setListener. rewrite decide_True by done.
    apply isolationRules_cleared. }
  clearbody lb2.
  destruct (clearRules _ (testListenerRef d) _) as [lb3 [err|u3]] eqn:H3.
  { unfold clearRules in H3.
    repeat (match type of H3 with
            | context [match ?x with _ => _ end] => destruct x
            end; try discriminate);
      injection H3 as <- _; cbn;
      (split; [exact Hd2|]; split; [discriminate|by right]). }
  apply clearRules_ok in H3 as (l2 & Hl2 & ->). cbn [lb phase withState].
  rewrite setListener_dom by eauto.
  rewrite activeSlot_setListener, !isolationFree_setListener.
  rewrite !decide_False by done. rewrite decide_True by done.
  split; [exact Hd2|]. split; [|by left].
  intros _. split; [exact Ha2|]. split; [exact Hf2|].
  apply isolationRules_cleared.
Qed.

Lemma abort_static d :
  prodListenerRef (abort d) = prodListenerRef d
  ∧ testListenerRef (abort d) = testListenerRef d
  ∧ original (abort d) = original d
  ∧ replacement (abort d) = replacement d.
Proof.
  unfold abort.
  repeat (match goal with
          | |- context [match ?x with _ => _ end] => destruct x
          end; try done).
Qed.

(** Every step of the deployment keeps the invariant. *)
Lemma step_invariant d e : invariant d -> invariant (step d e).
Proof.
  intros (Hne & Hdom & Hph). unfold invariant, phaseInvariant in *.
  unfold step.
  destruct (phase d) as [| | |k| |r] eqn:Hphase; destruct e as [|status];
    try (by rewrite ?Hphase).
  - (* BeforeInstall *)
    destruct (clearRules _ _ _) as [lb' [err|u]] eqn:Hc; cbn; [done|].
    apply clearRules_ok in Hc as (l & Hl & ->).
    rewrite setListener_dom by eauto.
    rewrite activeSlot_setListener, isolationFree_setListener.
    rewrite !decide_True by done. unfold isolationRules.
    cbn [defaultAction rules].
    repeat split; try done.
    + unfold activeSlot in Hph. by rewrite Hl in Hph.
    + apply isolationRules_cleared.
  - (* AfterAllowTestTraffic *)
    destruct Hph as [Hact Hfree].
    destruct (isolateTestTraffic _ _ _ _ _) as [lb' [err|h]] eqn:Hc; cbn; [done|].
    apply isolate_ok in Hc as (l & rs & Hl & ->).
    rewrite setListener_dom by eauto.
    rewrite activeSlot_setListener, isolationFree_setListener.
    rewrite !decide_False by done. done.
  - (* BeforeAllowTraffic *)
    destruct Hph as [Hact Hfree].
    destruct (clearRules _ _ _) as [lb' [err|u]] eqn:Hc; cbn; [done|].
    apply clearRules_ok in Hc as (l & Hl & ->).
    rewrite setListener_dom by eauto.
    rewrite !isolationFree_setListener.
    rewrite decide_False by done. rewrite decide_True by done.
    unfold isolationRules. cbn [defaultAction rules].
    repeat split; try done. apply isolationRules_cleared.
  - (* a shift step *)
    destruct Hph as [Hp Ht].
    assert (Hset : ∀ f lb' u,
      setDefaultAction (albRef d) (prodListenerRef d) f (lb d) = (lb', inr u) ->
      dom (listeners lb') = {[prodListenerRef d; testListenerRef d]}
      ∧ activeSlot lb' (prodListenerRef d) = soleTarget f
      ∧ isolationFree lb' (prodListenerRef d)
      ∧ isolationFree lb' (testListenerRef d)).
    { intros f lb' u Hc. apply setDefaultAction_ok in Hc as (l & Hl & ->).
      rewrite setListener_dom by eauto.
      rewrite activeSlot_setListener, !isolationFree_setListener.
      rewrite !decide_True by done. rewrite decide_False by done. cbn.
      repeat split; try done. by apply Hp. }
    destruct status.
    + (* OK *)
      destruct (schedule (policy d) !! k) as [pct|]; [|by cbn].
      destruct (setDefaultAction _ _ _ _) as [lb' [err|u]] eqn:Hc.
      * destruct (promote _ _ _ _) as [lb'' [err'|u']] eqn:Hpr; cbn; [done|].
        unfold promote in Hpr. by apply Hset in Hpr as (? & _).
      * apply Hset in Hc as (? & ? & ? & ?).
        by destruct (Nat.eqb (S k) _); cbn.
    + (* ALARM *)
      destruct (abort_ok d Hne Hdom) as (Hd & Hok & Hcases).
      destruct (abort_static d) as (-> & -> & -> & _).
      split; [done|]. split; [done|].
      destruct Hcases as [Hc|Hc]; rewrite Hc; [|done].
      by apply Hok.
    + (* UNKNOWN *)
      destruct (schedule (policy d) !! k) as [pct|]; [|by cbn].
      destruct (Nat.eqb (S k) _); cbn; [by rewrite Hphase|].
      destruct (setDefaultAction _ _ _ _) as [lb' [err|u]] eqn:Hc.
      * destruct (promote _ _ _ _) as [lb'' [err'|u']] eqn:Hpr; cbn; [done|].
        unfold promote in Hpr. by apply Hset in Hpr as (? & _).
      * apply Hset in Hc as (? & ? & ? & ?). by cbn.
Qed.

(** During the shift no test-isolation rule is left: the hooks before it
    have removed them. *)
Lemma shifting_is_isolation_free d es k :
  invariant d -> phase (run d es) = Shifting k ->
  isolationFree (lb (run d es)) (prodListenerRef (run d es))
  ∧ isolationFree (lb (run d es)) (testListenerRef (run d es)).
Proof.
  intros Hd Hk.
  assert (Hinv : invariant (run d es)).
  { clear Hk. unfold run. revert d Hd.
    induction es as [|e es IH]; intros d Hd; cbn; [done|].
    apply IH, step_invariant, Hd. }
  destruct Hinv as (_ & _ & Hph). unfold phaseInvariant in Hph.
  by rewrite Hk in Hph.
Qed.

Lemma run_invariant d es : invariant d -> invariant (run d es).
Proof.
  unfold run. revert d. induction es as [|e es IH]; intros d Hd; cbn; [done|].
  apply IH, step_invariant, Hd.
Qed.

Lemma begin_invariant lb0 alb prodRef testRef tgX tgY m p d0 :
  begin lb0 alb prodRef testRef tgX tgY m p = Some d0 ->
  invariant d0
  ∧ lb d0 = lb0 ∧ prodListenerRef d0 = prodRef ∧ testListenerRef d0 = testRef
  ∧ phase d0 = Created
  ∧ activeSlot lb0 prodRef = Some (original d0)
  ∧ (original d0 = tgX ∧ replacement d0 = tgY
     ∨ original d0 = tgY ∧ replacement d0 = tgX).
Proof.
  unfold begin. case_bool_decide as Hwf; [|discriminate].
  destruct Hwf as (Ha & Hne & Htg & Hdom & Htgs).
  destruct (activeSlot lb0 prodRef) as [s|] eqn:Hs; [|discriminate].
  repeat case_bool_decide; intros [= <-]; subst; cbn;
    unfold invariant, phaseInvariant; cbn; repeat split; auto.
Qed.

(** The deployment fails with [AlarmTriggered] only out of a shift step
    at which the alarm fired. *)
Lemma alarm_abort_is_mid_shift d e :
  phase (step d e) = Failed AlarmTriggered ->
  phase d ≠ Failed AlarmTriggered ->
  ∃ k, phase d = Shifting k ∧ e = ShiftStep ALARM.
Proof.
  unfold step. intros H Hn.
  destruct (phase d) as [| | |k| |r] eqn:Hphase; destruct e as [|status];
    try congruence;
    try (destruct status; [| by exists k |]);
    repeat (match type of H with
            | context [match ?x with _ => _ end] => destruct x eqn:?
            end; cbn in H; try congruence).
Qed.

(** C9: a deployment that was aborted because an alarm fired during the
    traffic shift leaves the production listener sending all its traffic to
    the slot that was active when the deployment began, and leaves no
    test-isolation rule on any listener. *)
Theorem alarm_abort_restores_original_slot
    lb0 alb prodRef testRef tgX tgY m p d0 es :
  begin lb0 alb prodRef testRef tgX tgY m p = Some d0 ->
  phase (run d0 es) = Failed AlarmTriggered ->
  activeSlot lb0 prodRef = Some (original d0)
  ∧ routesAllTo (lb (run d0 es)) prodRef (original d0)
  ∧ noIsolationRule (lb (run d0 es)).
Proof.
  intros Hb Hfail.
  destruct (begin_invariant _ _ _ _ _ _ _ _ _ Hb)
    as (Hinv & _ & Hprod & Htest & _ & Hact & _).
  split; [exact Hact|].
  apply (run_invariant _ es) in Hinv as (Hne & Hdom & Hph).
  unfold phaseInvariant in Hph. rewrite Hfail in Hph.
  destruct (run_static d0 es) as (Hp & Ht & Ho & _).
  rewrite Hp, Ht, Ho, ?Hprod, ?Htest in *.
  destruct Hph as (Hroute & Hfp & Hft).
  split; [exact Hroute|].
  intros ref l Hl.
  assert (Hin : ref ∈ dom (listeners (lb (run d0 es))))
    by (apply elem_of_dom; eauto).
  rewrite Hdom in Hin.
  apply elem_of_union in Hin as [Hin|Hin]; apply elem_of_singleton in Hin;
    subst ref; [by apply Hfp|by apply Hft].
Qed.

End CutoverFacts.

Section CutoverExamplesFacts.
Import ListenerRules Cutover ListenerRulesExamples.
Import CutoverExamples.

Example schedule_linear10 :
  schedule (Linear 10) = [10; 20; 30; 40; 50; 60; 70; 80; 90; 100]%nat.
Proof. reflexivity. Qed.

Example books_cutover_succeeds :
  (fun d => let d' := run d (hooksThenShift (replicate 10 OK)) in
            (phase d', activeSlot (lb d') "arn:listener-prod")) <$> books
  = Some (Succeeded, Some "arn:tg-green").
Proof. vm_compute. reflexivity. Qed.

Example books_test_rule_during_validation :
  (fun d => let d' := run d [RunHook; RunHook] in
            (phase d',
             (length ∘ isolationRules) <$> listeners (lb d') !! "arn:listener-test"))
    <$> books
  = Some (Testing, Some 1%nat).
Proof. vm_compute. reflexivity. Qed.

Example books_alarm_at_step_six :
  (fun d => let d' := run d (hooksThenShift (replicate 6 OK ++ [ALARM])) in
            (phase d', activeSlot (lb d') "arn:listener-prod")) <$> books
  = Some (Failed AlarmTriggered, Some "arn:tg-blue").
Proof. vm_compute. reflexivity. Qed.

(** Rules left on both listeners by an earlier deployment are gone after
    the abort. *)
Example stale_rules_gone_after_abort :
  (fun d => let d' := run d (hooksThenShift (replicate 6 OK ++ [ALARM])) in
            (phase d', activeSlot (lb d') "arn:listener-prod",
             (length ∘ isolationRules) <$> listeners (lb d') !! "arn:listener-prod",
             (length ∘ isolationRules) <$> listeners (lb d') !! "arn:listener-test"))
    <$> booksStale
  = Some (Failed AlarmTriggered, Some "arn:tg-blue", Some 0%nat, Some 0%nat).
Proof. vm_compute. reflexivity. Qed.

Lemma alarm_abort_restores_original_slot_witness :
  ∃ d0,
    books = Some d0
    ∧ phase (run d0 (hooksThenShift (replicate 6 OK ++ [ALARM])))
      = Failed AlarmTriggered
    ∧ routesAllTo (lb (run d0 (hooksThenShift (replicate 6 OK ++ [ALARM]))))
                  "arn:listener-prod" (original d0)
    ∧ noIsolationRule (lb (run d0 (hooksThenShift (replicate 6 OK ++ [ALARM])))).
Proof.
  eexists. split; [vm_compute; reflexivity|].
  split; [vm_compute; reflexivity|].
  apply (alarm_abort_restores_original_slot
           lb0 "arn:alb" "arn:listener-prod" "arn:listener-test"
           "arn:tg-blue" "arn:tg-green" counterHeader (Linear 10)).
  - vm_compute. reflexivity.
  - vm_compute. reflexivity.
Defined.

End CutoverExamplesFacts.
